(** * fb2epubru_dl: a shallow embedding of the scraper and its properties

    The development follows [fb2epubru_dl.py]: the [Parser] methods, the
    [BookIterator] generator, [download], [make_select_menu] and [main].

    - Python [str] values are [string]s (characters are code points below
      256), [bytes] values are lists of [Byte.byte], [None]-able values are
      [option]s, [dict]s are [gmap]s.
    - Exceptions are an inductive type [exn]; code that can raise returns a
      [result].
    - Effects (HTTP requests, terminal, file system, sleeping) are the nodes
      of a finite interaction tree [Prog]; a generator is a tree [Gen] that
      also has [GYield] nodes.  [run] interprets a tree against an
      environment, threading the trace of performed effects and the file
      system.
    - lxml (parsing, CSS selection, element navigation) is an interface,
      the class [Lxml]. *)

From Stdlib Require Import ZArith List Ascii String Strings.Byte Bool Lia.
From stdpp Require Import base option list strings pretty gmap.

Local Open Scope Z_scope.

(** ** Python strings *)

Module PyStr.

(** The double-quote character (used inside CSS selectors). *)
Definition dquote : string := String (ascii_of_nat 34) EmptyString.

(** The line feed, as a string. *)
Definition newline : string := String "010" EmptyString.

(** [string.whitespace]: space, tab, line feed, carriage return, vertical
    tab, form feed. *)
Definition whitespace : string :=
  String " " (String "009" (String "010" (String "013"
    (String "011" (String "012" EmptyString))))).

(** [c in chars] for a one-character [c]. *)
Fixpoint mem (c : ascii) (chars : string) : bool :=
  match chars with
  | EmptyString => false
  | String d rest => Ascii.eqb c d || mem c rest
  end.

(** [str.isspace] on one character below 256: 9..13, 28..32, 133, 160. *)
Definition isspace (c : ascii) : bool :=
  let n := nat_of_ascii c in
  ((9 <=? n) && (n <=? 13) || (28 <=? n) && (n <=? 32)
   || (n =? 133) || (n =? 160))%nat.

(** [s.lstrip(...)]: drop the leading characters that satisfy [p]. *)
Fixpoint lstrip_by (p : ascii -> bool) (s : string) : string :=
  match s with
  | EmptyString => EmptyString
  | String c rest => if p c then lstrip_by p rest else s
  end.

(** [s.rstrip(...)]: drop the trailing characters that satisfy [p]. *)
Fixpoint rstrip_by (p : ascii -> bool) (s : string) : string :=
  match s with
  | EmptyString => EmptyString
  | String c rest =>
      match rstrip_by p rest with
      | EmptyString => if p c then EmptyString else String c EmptyString
      | kept => String c kept
      end
  end.

Definition strip_by (p : ascii -> bool) (s : string) : string :=
  rstrip_by p (lstrip_by p s).

(** [s.strip()] *)
Definition strip (s : string) : string := strip_by isspace s.

(** [s.strip(chars)] *)
Definition strip_chars (chars s : string) : string :=
  strip_by (fun c => mem c chars) s.

(** [str.lower] on one character below 256: A..Z and the Latin-1 capitals
    192..222 (without the multiplication sign 215) move up by 32. *)
Definition lower_char (c : ascii) : ascii :=
  let n := nat_of_ascii c in
  if ((65 <=? n) && (n <=? 90)
      || (192 <=? n) && (n <=? 222) && negb (n =? 215))%nat
  then ascii_of_nat (n + 32) else c.

(** [s.lower()] *)
Fixpoint lower (s : string) : string :=
  match s with
  | EmptyString => EmptyString
  | String c rest => String (lower_char c) (lower rest)
  end.

(** [sep.join(parts)] *)
Fixpoint join (sep : string) (parts : list string) : string :=
  match parts with
  | [] => EmptyString
  | [x] => x
  | x :: rest => x +:+ sep +:+ join sep rest
  end.

(** [s.split(sep)] for a one-character separator, as a non-empty list:
    the first field and the remaining ones. *)
Fixpoint split_fields (sep : ascii) (s : string) : string * list string :=
  match s with
  | EmptyString => (EmptyString, [])
  | String c rest =>
      let '(hd, tl) := split_fields sep rest in
      if Ascii.eqb c sep then (EmptyString, hd :: tl) else (String c hd, tl)
  end.

Definition split (sep : ascii) (s : string) : list string :=
  let '(hd, tl) := split_fields sep s in hd :: tl.

(** [s.split(sep).pop()]: the last field; [split] never returns an empty
    list, so [pop] cannot fail here. *)
Definition split_pop (sep : ascii) (s : string) : string :=
  let '(hd, tl) := split_fields sep s in List.last tl hd.

Definition digit_of (c : ascii) : option Z :=
  let n := nat_of_ascii c in
  if ((48 <=? n) && (n <=? 57))%nat then Some (Z.of_nat (n - 48)) else None.

(** The digits of an integer literal, single underscores allowed between
    two digits. [prev] tells whether the previous character was a digit. *)
Fixpoint digits (s : string) (acc : Z) (prev : bool) : option Z :=
  match s with
  | EmptyString => if prev then Some acc else None
  | String c rest =>
      match digit_of c with
      | Some d => digits rest (10 * acc + d) true
      | None => if Ascii.eqb c "_" && prev then digits rest acc false else None
      end
  end.

(** The characters [int] skips around a literal. Of the characters below
    256 that [str.isspace] accepts, the separators 28..31 are not among
    them: 9..13, 32, 133, 160. *)
Definition int_space (c : ascii) : bool :=
  let n := nat_of_ascii c in
  ((9 <=? n) && (n <=? 13) || (n =? 32) || (n =? 133) || (n =? 160))%nat.

(** The number of decimal digits in [s]. *)
Fixpoint digit_count (s : string) : Z :=
  match s with
  | EmptyString => 0
  | String c rest =>
      match digit_of c with Some _ => 1 | None => 0 end + digit_count rest
  end.

(** [sys.get_int_max_str_digits()], at its default. *)
Definition max_str_digits : Z := 4300.

(** [int(s)] for a string: surrounding whitespace, an optional sign, then
    decimal digits, at most [max_str_digits] of them. [None] stands for
    [ValueError]. *)
Definition int (s : string) : option Z :=
  let t := strip_by int_space s in
  if max_str_digits <? digit_count t then None
  else match t with
       | String "+" rest => digits rest 0 false
       | String "-" rest => Z.opp <$> digits rest 0 false
       | _ => digits t 0 false
       end.

(** Every character of [s] satisfies [p]. *)
Fixpoint all_chars (p : ascii -> bool) (s : string) : bool :=
  match s with
  | EmptyString => true
  | String c rest => p c && all_chars p rest
  end.

(** [s] does not begin with a character that satisfies [p]. *)
Definition clean_head (p : ascii -> bool) (s : string) : bool :=
  match s with
  | EmptyString => true
  | String c _ => negb (p c)
  end.

(** [s] does not end with a character that satisfies [p]. *)
Fixpoint clean_last (p : ascii -> bool) (s : string) : bool :=
  match s with
  | EmptyString => true
  | String c EmptyString => negb (p c)
  | String _ rest => clean_last p rest
  end.

(** [f'{x}'] for a value that may be [None]. *)
Definition fstr (x : option string) : string :=
  match x with Some s => s | None => "None" end.

(** Truthiness of a value that is [None] or a [str]. *)
Definition truthy (x : option string) : bool :=
  match x with
  | None | Some EmptyString => false
  | Some _ => true
  end.

End PyStr.

(** ** Exceptions, results, responses *)

(** The exceptions the program can end with. [MultipleElementsFoundError]
    stores the matched elements in its [found] attribute. [ParserError] and
    [SelectorError] are lxml's, [RequestException] is requests', [Abort] is
    click's. *)
Inductive exn (Elem : Type) : Type :=
| IndexError
| AttributeError
| TypeError
| ValueError
| KeyError
| ZeroDivisionError
| OverflowError
| MultipleElementsFoundError (found : list Elem)
| ParserError
| SelectorError
| RequestException
| OSError
| Abort.

Arguments IndexError {Elem}.
Arguments AttributeError {Elem}.
Arguments TypeError {Elem}.
Arguments ValueError {Elem}.
Arguments KeyError {Elem}.
Arguments ZeroDivisionError {Elem}.
Arguments OverflowError {Elem}.
Arguments MultipleElementsFoundError {Elem} found.
Arguments ParserError {Elem}.
Arguments SelectorError {Elem}.
Arguments RequestException {Elem}.
Arguments OSError {Elem}.
Arguments Abort {Elem}.

Inductive result (E A : Type) : Type :=
| Ok (a : A)
| Err (e : E).

Arguments Ok {E A} a.
Arguments Err {E A} e.

(** What [requests.get] returns: the status line and the body. *)
Record Response : Type := mkResponse {
  status_code : Z;
  content : list byte
}.

(** ** The lxml interface *)

(** What the program uses of [lxml.html]: [fromstring] ([None]: the parser
    rejects the document), [Element.cssselect] ([None]: the selector is
    rejected), [Element.find] with a tag name, [Element.getparent], the
    [text] and [tail] attributes and [Element.get]. *)
Class Lxml (Elem : Type) : Type := {
  fromstring : list byte -> option Elem;
  el_cssselect : Elem -> string -> option (list Elem);
  el_find : Elem -> string -> option Elem;
  el_getparent : Elem -> option Elem;
  el_text : Elem -> option string;
  el_tail : Elem -> option string;
  el_get : Elem -> string -> option string
}.

(** ** Effects *)

(** The calls that reach outside the program:
    [requests.get(url, stream=...)], [click.echo], [click.prompt] with an
    [IntRange], [os.path.exists], [os.mkdir], [open(path, 'wb')], [f.write]
    and [sleep] (in milliseconds).  Rendering of the progress bar is not
    modelled. *)
Inductive Eff : Type :=
| HttpGet (url : string) (stream : bool)
| Echo (message : string)
| Prompt (text : string) (lo hi : Z)
| PathExists (path : string)
| Mkdir (path : string) (mode : Z)
| OpenWb (path : string)
| FWrite (path : string) (chunk : list byte)
| Sleep (ms : Z).

(** The type of the answer to each call. *)
Definition Resp (e : Eff) : Type :=
  match e with
  | HttpGet _ _ => Response
  | Prompt _ _ _ => Z
  | PathExists _ => bool
  | Echo _ | Mkdir _ _ | OpenWb _ | FWrite _ _ | Sleep _ => unit
  end.

(** The calls of the selection menu: a line printed, a number asked. *)
Definition is_menu (e : Eff) : bool :=
  match e with Prompt _ _ _ | Echo _ => true | _ => false end.

(** The file system: regular files with their contents, and directories. *)
Record FS : Type := mkFS {
  files : gmap string (list byte);
  dirs : gset string
}.

(** The state threaded through a run: every call made so far, in order, and
    the file system. *)
Record State : Type := mkState {
  trace : list Eff;
  fs : FS
}.

(** The outside world. The site and the user answer as a function of
    everything that happened before ([None]: the transport fails, the user
    aborts); [os_denies] are the failures of the operating system that the
    model of the file system does not decide itself (permissions, missing
    parent directories, a full disk). *)
Record Env : Type := mkEnv {
  http : list Eff -> string -> bool -> option Response;
  stdin : list Eff -> string -> option Z;
  os_denies : FS -> Eff -> bool
}.

Definition path_exists (f : FS) (path : string) : bool :=
  bool_decide (path ∈ dirs f) || bool_decide (is_Some (files f !! path)).

(** Pieces of [n] bytes of [body], as long as bytes are left; [fuel] bounds
    the number of pieces (the length of the body is enough for [n > 0]). *)
Fixpoint chunks_fuel (fuel n : nat) (body : list byte) : list (list byte) :=
  match fuel, body with
  | O, _ | _, [] => []
  | S fuel', _ => take n body :: chunks_fuel fuel' n (drop n body)
  end.

(** [resp.iter_content(chunk_size)]: the body cut into pieces of
    [chunk_size] bytes, the last one possibly shorter; no piece at all for
    a [chunk_size] of 0. The body is the one the response came with: a
    transport that fails while the body is being read is not modelled. *)
Definition iter_content (resp : Response) (chunk_size : nat) : list (list byte) :=
  match chunk_size with
  | O => []
  | S _ => chunks_fuel (length (content resp)) chunk_size (content resp)
  end.

(** [range(lo, hi)] *)
Definition range (lo hi : Z) : list Z :=
  (fun k => lo + Z.of_nat k) <$> seq 0 (Z.to_nat (hi - lo)).

(** The ceiling of the exact quotient of [a] by [b > 0]. *)
Definition ceil_div (a b : Z) : Z := - ((- a) / b).

(** ** True division of integers

    [a / b] on two [int]s is the double nearest to the exact quotient, ties
    going to the even significand. A double is kept as a pair [(m, s)] that
    stands for [m * 2 ^ s], with [|m| < 2 ^ 53] and [-1074 <= s]. *)

(** The integer nearest to [n / d] for [0 <= n] and [0 < d], a tie going to
    the even one. *)
Definition round_half_even (n d : Z) : Z :=
  let q := n / d in
  let r := n mod d in
  if 2 * r <? d then q
  else if d <? 2 * r then q + 1
  else if Z.even q then q else q + 1.

(** The [e] with [2 ^ e <= a / b < 2 ^ (e + 1)], for [0 < a] and [0 < b]. *)
Definition quotient_exponent (a b : Z) : Z :=
  let d := Z.log2 a - Z.log2 b in
  if (if 0 <=? d then b * 2 ^ d <=? a else b <=? a * 2 ^ (- d))
  then d else d - 1.

(** The quotient of two positive integers: 53 significant bits, fewer when
    the result is subnormal; [None] when it is beyond the largest double. *)
Definition true_div_pos (a b : Z) : option (Z * Z) :=
  let s := Z.max (quotient_exponent a b - 52) (-1074) in
  let m := round_half_even (a * 2 ^ Z.max (- s) 0) (b * 2 ^ Z.max s 0) in
  if m * 2 ^ Z.max s 0 <? 2 ^ 1024 * 2 ^ Z.max (- s) 0
  then Some (m, s) else None.

Inductive arith_error : Type :=
| DivisionByZero
| ResultTooLarge.

(** [a / b]: [ZeroDivisionError] for [b = 0], [OverflowError] for a
    quotient too large for a double. *)
Definition true_div (a b : Z) : result arith_error (Z * Z) :=
  if b =? 0 then Err DivisionByZero
  else if a =? 0 then Ok (0, 0)
  else match true_div_pos (Z.abs a) (Z.abs b) with
       | Some (m, s) => Ok (Z.sgn a * Z.sgn b * m, s)
       | None => Err ResultTooLarge
       end.

(** [math.ceil(x)] for a finite double [x]. *)
Definition math_ceil (x : Z * Z) : Z :=
  ceil_div (x.1 * 2 ^ Z.max x.2 0) (2 ^ Z.max (- x.2) 0).

(** ** Programs and generators *)

Section Programs.
Context {Elem : Type}.

(** A program: it returns, raises, or makes a call and goes on with the
    answer. *)
Inductive Prog (A : Type) : Type :=
| Ret (a : A)
| Raise (e : exn Elem)
| Vis (e : Eff) (k : Resp e -> Prog A).

Global Arguments Ret {A} a.
Global Arguments Raise {A} e.
Global Arguments Vis {A} e k.

Fixpoint bind {A B : Type} (p : Prog A) (f : A -> Prog B) : Prog B :=
  match p with
  | Ret a => f a
  | Raise e => Raise e
  | Vis e k => Vis e (fun r => bind (k r) f)
  end.

Global Instance Prog_ret : MRet Prog := fun _ a => Ret a.
Global Instance Prog_bind : MBind Prog := fun _ _ f p => bind p f.

(** One call, returning its answer. *)
Definition call (e : Eff) : Prog (Resp e) := Vis e Ret.

Definition requests_get (url : string) (stream : bool) : Prog Response :=
  call (HttpGet url stream).
Definition click_echo (message : string) : Prog unit := call (Echo message).
Definition click_prompt (text : string) (lo hi : Z) : Prog Z :=
  call (Prompt text lo hi).
Definition os_path_exists (path : string) : Prog bool := call (PathExists path).
Definition os_mkdir (path : string) (mode : Z) : Prog unit := call (Mkdir path mode).
Definition open_wb (path : string) : Prog unit := call (OpenWb path).
Definition f_write (path : string) (chunk : list byte) : Prog unit :=
  call (FWrite path chunk).
Definition sleep (ms : Z) : Prog unit := call (Sleep ms).

(** A library call that answers [None] raises [e]. *)
Definition or_raise {A : Type} (e : exn Elem) (x : option A) : Prog A :=
  match x with Some a => Ret a | None => Raise e end.

(** Attribute access or method call on a value that may be [None]. *)
Definition attr {A : Type} (x : option A) : Prog A := or_raise AttributeError x.

(** [for x in xs: body(x)] *)
Fixpoint for_each {X : Type} (xs : list X) (body : X -> Prog unit) : Prog unit :=
  match xs with
  | [] => Ret tt
  | x :: rest => bind (body x) (fun _ => for_each rest body)
  end.

(** The body of a generator function: like a program, with [yield]. *)
Inductive Gen (Y : Type) : Type :=
| GDone
| GRaise (e : exn Elem)
| GYield (y : Y) (rest : Gen Y)
| GVis (e : Eff) (k : Resp e -> Gen Y).

Global Arguments GDone {Y}.
Global Arguments GRaise {Y} e.
Global Arguments GYield {Y} y rest.
Global Arguments GVis {Y} e k.

(** Run a program inside a generator body, then go on. *)
Fixpoint gen_bind {A Y : Type} (p : Prog A) (f : A -> Gen Y) : Gen Y :=
  match p with
  | Ret a => f a
  | Raise e => GRaise e
  | Vis e k => GVis e (fun r => gen_bind (k r) f)
  end.

(** Sequencing of two pieces of a generator body. *)
Fixpoint gen_seq {Y : Type} (g h : Gen Y) : Gen Y :=
  match g with
  | GDone => h
  | GRaise e => GRaise e
  | GYield y rest => GYield y (gen_seq rest h)
  | GVis e k => GVis e (fun r => gen_seq (k r) h)
  end.

(** [for x in xs: body(x)] inside a generator body. *)
Fixpoint gen_for {X Y : Type} (xs : list X) (body : X -> Gen Y) : Gen Y :=
  match xs with
  | [] => GDone
  | x :: rest => gen_seq (body x) (gen_for rest body)
  end.

(** Calling a generator function runs none of its body: the call returns
    the generator object, which holds the suspended body. *)
Definition new_generator {Y : Type} (body : Gen Y) : Prog (Gen Y) := Ret body.

(** [next(g)]: resume the body up to its next [yield]; [None] stands for
    [StopIteration]. *)
Fixpoint next {Y : Type} (g : Gen Y) : Prog (option (Y * Gen Y)) :=
  match g with
  | GDone => Ret None
  | GRaise e => Raise e
  | GYield y rest => Ret (Some (y, rest))
  | GVis e k => Vis e (fun r => next (k r))
  end.

(** [tuple(g)]: iterate to the end and collect what was yielded. *)
Fixpoint tuple {Y : Type} (g : Gen Y) : Prog (list Y) :=
  match g with
  | GDone => Ret []
  | GRaise e => Raise e
  | GYield y rest => bind (tuple rest) (fun ys => Ret (y :: ys))
  | GVis e k => Vis e (fun r => tuple (k r))
  end.

(** [for y in g: body(y)] in a program: the body runs between two
    resumptions of the generator. *)
Fixpoint for_gen {Y : Type} (g : Gen Y) (body : Y -> Prog unit) : Prog unit :=
  match g with
  | GDone => Ret tt
  | GRaise e => Raise e
  | GYield y rest => bind (body y) (fun _ => for_gen rest body)
  | GVis e k => Vis e (fun r => for_gen (k r) body)
  end.

(** *** Running a program *)

Definition log (e : Eff) (f : FS) (st : State) : State :=
  {| trace := trace st ++ [e]; fs := f |}.

(** One call against the world. Every call is recorded, also a failing
    one. [requests.get] fails as a whole or returns a response that holds
    its complete body, also when [stream] is set: a failure in the middle
    of a streamed body is outside this model. [click.prompt] with an
    [IntRange] only returns a number inside the range; [stdin] gives the
    entry it ends with, and an entry outside the range, after which the
    real prompt asks again, counts as the end of the input. [os.mkdir]
    fails on an existing path, [open(path, 'wb')] fails on a directory and
    otherwise creates or truncates the file, [f.write] appends. *)
Definition handle (env : Env) (e : Eff) (st : State)
  : result (exn Elem) (Resp e) * State :=
  let f := fs st in
  match e as e' return result (exn Elem) (Resp e') * State with
  | HttpGet url stream =>
      (match http env (trace st) url stream with
       | Some resp => Ok resp
       | None => Err RequestException
       end, log e f st)
  | Echo _ => (Ok tt, log e f st)
  | Prompt text lo hi =>
      (match stdin env (trace st) text with
       | Some z => if (lo <=? z) && (z <=? hi) then Ok z else Err Abort
       | None => Err Abort
       end, log e f st)
  | PathExists path => (Ok (path_exists f path), log e f st)
  | Mkdir path _ =>
      if os_denies env f e || path_exists f path
      then (Err OSError, log e f st)
      else (Ok tt, log e {| files := files f; dirs := {[path]} ∪ dirs f |} st)
  | OpenWb path =>
      if os_denies env f e || bool_decide (path ∈ dirs f)
      then (Err OSError, log e f st)
      else (Ok tt, log e {| files := <[path := []]> (files f); dirs := dirs f |} st)
  | FWrite path chunk =>
      if os_denies env f e
      then (Err OSError, log e f st)
      else (Ok tt, log e {| files := alter (fun old => old ++ chunk) path (files f);
                            dirs := dirs f |} st)
  | Sleep _ => (Ok tt, log e f st)
  end.

(** Run a program to its end: its outcome and the final state. *)
Fixpoint run {A : Type} (env : Env) (p : Prog A) (st : State)
  : result (exn Elem) A * State :=
  match p with
  | Ret a => (Ok a, st)
  | Raise e => (Err e, st)
  | Vis e k =>
      match handle env e st with
      | (Ok r, st') => run env (k r) st'
      | (Err x, st') => (Err x, st')
      end
  end.

(** The exceptions that come from the outside world. *)
Definition world_error (e : exn Elem) : Prop :=
  e = RequestException \/ e = OSError \/ e = Abort.

(** Every call the program can make satisfies [P] and every exception it
    raises itself satisfies [Q], whatever the answers to its calls. *)
Inductive prog_all {A : Type} (P : Eff -> Prop) (Q : exn Elem -> Prop)
  : Prog A -> Prop :=
| all_Ret (a : A) : prog_all P Q (Ret a)
| all_Raise (e : exn Elem) : Q e -> prog_all P Q (Raise e)
| all_Vis (e : Eff) (k : Resp e -> Prog A) :
    P e -> (forall r, prog_all P Q (k r)) -> prog_all P Q (Vis e k).

(** The same for the body of a generator. *)
Inductive gen_all {Y : Type} (P : Eff -> Prop) (Q : exn Elem -> Prop)
  : Gen Y -> Prop :=
| all_GDone : gen_all P Q GDone
| all_GRaise (e : exn Elem) : Q e -> gen_all P Q (GRaise e)
| all_GYield (y : Y) (rest : Gen Y) : gen_all P Q rest -> gen_all P Q (GYield y rest)
| all_GVis (e : Eff) (k : Resp e -> Gen Y) :
    P e -> (forall r, gen_all P Q (k r)) -> gen_all P Q (GVis e k).

(** A program that makes no call: running it leaves the state as it is. *)
Definition no_effects {A : Type} (p : Prog A) : Prop :=
  forall env st, (run env p st).2 = st.

End Programs.

Global Arguments Prog Elem A : clear implicits.
Global Arguments Gen Elem Y : clear implicits.

(** ** The library functions on paths and templates *)

Inductive format_error : Type :=
| FormatKeyError
| FormatIndexError
| FormatValueError.

(** [os.path.join] of two components, [os.path.splitext], and
    [template.format] with keyword arguments, which raises on a field that is not among
    the keyword arguments, on a positional field and on a malformed
    template. *)
Class PyLib : Type := {
  os_path_join : string -> string -> string;
  os_path_splitext : string -> string * string;
  str_format : string -> list (string * option string) -> result format_error string
}.

(** ** The scraper *)

Section Scraper.
Context {Elem : Type} `{!Lxml Elem} `{!PyLib}.

Local Abbreviation Prog := (Prog Elem).
Local Abbreviation Gen := (Gen Elem).

(** [d.get(key)] *)
Definition dict_get `{Countable K} {V : Type}
    (key : K) (d : gmap K (option V)) : option V :=
  match d !! key with Some v => v | None => None end.

(** [d[key]] *)
Definition dict_item `{Countable K} {V : Type} (key : K) (d : gmap K V) : Prog V :=
  or_raise KeyError (d !! key).

(** [download(url, path, chunk_size)] *)
Definition download (url path : string) (chunk_size : nat) : Prog string :=
  resp ← requests_get url true;
  open_wb path;;
  for_each (iter_content resp chunk_size) (fun chunk => f_write path chunk);;
  Ret path.

(** *** class Parser *)

Definition BASE_URL : string := "https://fb2-epub.ru".

Definition get_abs_url (url : option string) : string :=
  BASE_URL +:+ PyStr.fstr url.

Definition send (url : option string) : Prog Response :=
  requests_get (get_abs_url url) false.

Definition make_tree (response : Response) : Prog Elem :=
  or_raise ParserError (fromstring (content response)).

Definition findall (selector : string) (url : option string) (tree : option Elem)
  : Prog (list Elem) :=
  tree ← match tree with
          | None => response ← send url; make_tree response
          | Some t => Ret t
          end;
  or_raise SelectorError (el_cssselect tree selector).

Definition findone (selector : string) (url : option string) (tree : option Elem)
  : Prog (option Elem) :=
  found ← findall selector url tree;
  if (1 <? length found)%nat then Raise (MultipleElementsFoundError found)
  else Ret (match found with [] => None | first :: _ => Some first end).

(** The list comprehension of [get_book]:
    [[e.text.strip() for e in ... if e.text]]. *)
Definition description_lines (paragraphs : list Elem) : list string :=
  omap (fun e => if PyStr.truthy (el_text e) then PyStr.strip <$> el_text e else None)
       paragraphs.

(** The selectors of the download links: an anchor below a [div] whose
    [href] ends in [.zip], respectively in [.epub]. *)
Definition fb2_selector : string :=
  "div a[href$=" +:+ PyStr.dquote +:+ ".zip" +:+ PyStr.dquote +:+ "]".

Definition epub_selector : string :=
  "div a[href$=" +:+ PyStr.dquote +:+ ".epub" +:+ PyStr.dquote +:+ "]".

(** The selector of [search]: an anchor that contains the query, inside
    a paragraph that directly follows a level-2 heading. *)
Definition search_selector (query : string) : string :=
  "h2 + p a:contains(" +:+ PyStr.dquote +:+ query +:+ PyStr.dquote +:+ ")".

(** A book is a [dict] from field names to strings (or [None]). *)
Definition get_book (url : option string) : Prog (gmap string (option string)) :=
  elem ← findone ".eText" url None;
  elem ← attr elem;
  h1 ← attr (el_find elem "h1");
  author ← attr (el_find h1 "a");
  let book := <["author" := el_text author]> (∅ : gmap string (option string)) in
  let book := <["author_url" := Some (get_abs_url (el_get author "href"))]> book in
  raw_title ← attr (el_tail author);
  let book :=
    <["title" := Some (PyStr.strip_chars (PyStr.whitespace +:+ ".") raw_title)]> book in
  paragraphs ← findall "p" None (Some elem);
  let description := description_lines paragraphs in
  let book := <["description" := Some (PyStr.join PyStr.newline description)]> book in
  fb2_url ← findone fb2_selector None (Some elem);
  let book :=
    match fb2_url with
    | Some a => <["fb2_url" := Some (get_abs_url (el_get a "href"))]> book
    | None => book
    end in
  epub_url ← findone epub_selector None (Some elem);
  let book :=
    match epub_url with
    | Some a => <["epub_url" := Some (get_abs_url (el_get a "href"))]> book
    | None => book
    end in
  Ret book.

(** The dict comprehension of [get_index], anchor after anchor. *)
Fixpoint index_of_anchors (anchors : list Elem) (acc : gmap string (option string))
  : Prog (gmap string (option string)) :=
  match anchors with
  | [] => Ret acc
  | a :: rest =>
      t ← attr (el_text a);
      index_of_anchors rest (<[PyStr.lower t := el_get a "href"]> acc)
  end.

Definition get_index : Prog (gmap string (option string)) :=
  anchors ← findall "#s1 a" (Some "/") None;
  index_of_anchors anchors ∅.

(** The body of the generator function [search]. *)
Definition search_body (query : string) : Gen (option string * option string) :=
  match query with
  | EmptyString => GRaise IndexError
  | String c _ =>
      let first_letter := PyStr.lower (String c EmptyString) in
      gen_bind get_index (fun index =>
      let url := dict_get first_letter index in
      if PyStr.truthy url then
        gen_bind (findall (search_selector query) url None) (fun anchors =>
        gen_for anchors (fun a => GYield (el_get a "href", el_text a) GDone))
      else GDone)
  end.

Definition search (query : string) : Prog (Gen (option string * option string)) :=
  new_generator (search_body query).

(** *** class BookIterator *)

Record BookIterator : Type := mkBookIterator {
  base_url : option string;
  show_count : Z;
  count : Z
}.

(** [int(x)] for a value that is [None] or a [str]. *)
Definition py_int (x : option string) : Prog Z :=
  match x with
  | None => Raise TypeError
  | Some s => or_raise ValueError (PyStr.int s)
  end.

Definition BookIterator_init (base_url : option string) : Prog BookIterator :=
  show_count_element ← findone ".numShown73" base_url None;
  show_count_element ← attr show_count_element;
  shown ← attr (el_text show_count_element);
  show_count ← py_int (Some (PyStr.split_pop "-" shown));
  parent ← attr (el_getparent show_count_element);
  grandparent ← attr (el_getparent parent);
  b ← attr (el_find grandparent "b");
  count ← py_int (el_text b);
  Ret {| base_url := base_url; show_count := show_count; count := count |}.

Definition arith_exn (e : arith_error) : exn Elem :=
  match e with
  | DivisionByZero => ZeroDivisionError
  | ResultTooLarge => OverflowError
  end.

(** [math.ceil(self.count / self.show_count) + 1] *)
Definition count_pages (self : BookIterator) : result arith_error Z :=
  match true_div (count self) (show_count self) with
  | Ok quotient => Ok (math_ceil quotient + 1)
  | Err e => Err e
  end.

Definition page_url (self : BookIterator) (i : Z) : string :=
  PyStr.fstr (base_url self) +:+ "-" +:+ pretty i.

(** The body of the generator function [BookIterator.__iter__]. *)
Definition BookIterator_iter_body (self : BookIterator)
  : Gen (gmap string (option string)) :=
  if count self =? 0 then GDone
  else
    match count_pages self with
    | Err e => GRaise (arith_exn e)
    | Ok pages =>
        gen_for (range 1 pages) (fun i =>
          gen_bind (findall "#allEntries .My a" (Some (page_url self i)) None) (fun anchors =>
          gen_for anchors (fun a =>
            gen_bind (get_book (el_get a "href")) (fun book => GYield book GDone))))
    end.

Definition BookIterator_iter (self : BookIterator)
  : Prog (Gen (gmap string (option string))) :=
  new_generator (BookIterator_iter_body self).

Definition iter_books (url : option string) : Prog BookIterator :=
  BookIterator_init url.

(** *** The command line program *)

(** The loop of [make_select_menu]; [i] is the number of the next item. *)
Fixpoint menu_loop (items : list (option string * option string)) (i : Z)
    (menu : gmap Z (option string)) : Prog (gmap Z (option string)) :=
  match items with
  | [] => Ret menu
  | item :: rest =>
      let menu := <[i := item.1]> menu in
      click_echo (pretty i +:+ ". " +:+ PyStr.fstr item.2);;
      menu_loop rest (i + 1) menu
  end.

Definition make_select_menu (iterable : list (option string * option string))
  : Prog (option string) :=
  menu ← menu_loop iterable 1 ∅;
  idx ← click_prompt "Select one" 1 (Z.of_nat (size menu));
  Ret (dict_get idx menu).

Definition format_exn (e : format_error) : exn Elem :=
  match e with
  | FormatKeyError => KeyError
  | FormatIndexError => IndexError
  | FormatValueError => ValueError
  end.

(** A [str] argument of a library function that got [None]. *)
Definition str_arg (x : option string) : Prog string := or_raise TypeError x.

(** [if not os.path.exists(path): os.mkdir(path, 0o755)] *)
Definition ensure_dir (path : string) : Prog unit :=
  bind (os_path_exists path) (fun present : bool =>
  if present then Ret tt else os_mkdir path 493).

(** The body of the download loop of [main]. *)
Definition main_loop_body (dest filename_template file_format : string)
    (book : gmap string (option string)) : Prog unit :=
  let url := dict_get (file_format +:+ "_url") book in
  author ← dict_item "author" book;
  author_dir ← str_arg author;
  let path := os_path_join dest author_dir in
  ensure_dir path;;
  author ← dict_item "author" book;
  title ← dict_item "title" book;
  name ← match str_format filename_template [("author", author); ("title", title)] with
          | Ok name => Ret name
          | Err e => Raise (format_exn e)
          end;
  let path := os_path_join path name in
  url ← str_arg url;
  let ext := (os_path_splitext url).2 in
  let path := path +:+ ext in
  download url path 1024;;
  sleep 100.

(** [main] after the target URL is known. *)
Definition main_books (url : option string) (dest filename_template file_format : string)
  : Prog unit :=
  books ← iter_books url;
  bar ← BookIterator_iter books;
  for_gen bar (main_loop_body dest filename_template file_format).

Definition main (query dest filename_template file_format : string) : Prog unit :=
  results ← search query;
  found ← tuple results;
  url ← (if (1 <? length found)%nat then make_select_menu found
         else match found with
              | [] => Raise IndexError
              | first :: _ => Ret first.1
              end);
  main_books url dest filename_template file_format.

End Scraper.

(** ** Vocabulary of the statements *)

Section Vocabulary.
Context {Elem : Type} `{!Lxml Elem}.

(** The container [elem] of a book page has the shape [get_book] relies on:
    a heading [h1] with the author anchor [author], text [raw] after that
    anchor, the paragraphs [paragraphs], and at most one link of each
    format among [fb2] and [epub]. *)
Definition book_shape (elem h1 author : Elem) (raw : string)
    (paragraphs fb2 epub : list Elem) : Prop :=
  el_find elem "h1" = Some h1
  /\ el_find h1 "a" = Some author
  /\ el_tail author = Some raw
  /\ el_cssselect elem "p" = Some paragraphs
  /\ el_cssselect elem fb2_selector = Some fb2 /\ (length fb2 <= 1)%nat
  /\ el_cssselect elem epub_selector = Some epub /\ (length epub <= 1)%nat.

(** The characters the title is stripped of. *)
Definition title_strippable (c : ascii) : bool :=
  PyStr.mem c (PyStr.whitespace +:+ ".").

(** The description in the words of the specification: the texts that are
    present and not empty, each stripped, joined by line feeds. *)
Definition spec_description (paragraphs : list Elem) : string :=
  PyStr.join PyStr.newline
    (PyStr.strip <$> filter (fun t => t <> EmptyString) (omap el_text paragraphs)).

(** The first character of a string, as a string. *)
Definition first_char (s : string) : string :=
  match s with
  | EmptyString => EmptyString
  | String c _ => String c EmptyString
  end.

(** The keys of the index in the words of section 8 of the specification:
    the lowercased first characters of the texts of the anchors. *)
Definition spec_index_keys (anchors : list Elem) : gset string :=
  list_to_set ((fun t => PyStr.lower (first_char t)) <$> omap el_text anchors).

(** The last anchor whose lowercased text is [key]. *)
Definition last_anchor_for (key : string) (anchors : list Elem) : option Elem :=
  last (filter (fun a => PyStr.lower <$> el_text a = Some key) anchors).


End Vocabulary.

(** ** Vocabulary of the further statements *)

Section MoreVocabulary.
Context {Elem : Type}.

(** A request of the parser: a plain GET, not streamed, for a URL that
    begins with the address of the site. *)
Definition is_site_get (e : Eff) : Prop :=
  exists path, e = HttpGet ("https://fb2-epub.ru" +:+ path) false.

(** A program that, whatever the outside world answers, leaves the file
    system as it is and only makes requests of the parser. *)
Definition site_only {A : Type} (p : Prog Elem A) : Prop :=
  forall env st,
    fs (run env p st).2 = fs st
    /\ exists calls,
         trace (run env p st).2 = trace st ++ calls /\ Forall is_site_get calls.

(** The lines [make_select_menu] prints for the items, numbered from [i]. *)
Fixpoint menu_lines (items : list (option string * option string)) (i : Z)
  : list Eff :=
  match items with
  | [] => []
  | item :: rest =>
      Echo (pretty i +:+ ". " +:+ PyStr.fstr item.2) :: menu_lines rest (i + 1)
  end.

(** The state after more calls that do not change the file system. *)
Definition after (calls : list Eff) (st : State) : State :=
  {| trace := trace st ++ calls; fs := fs st |}.

End MoreVocabulary.

(** ** A small site to run the program on *)

(** Elements given by what the program can observe of them: text, tail,
    attributes, the children [find] sees, the parent, and for each selector
    of interest the elements [cssselect] returns (nothing for any other
    selector).  A document is identified by its bytes. *)
Module Toy.

Local Unset Elimination Schemes.
Inductive TElem : Type :=
| TE (text tail : option string)
     (attrs : list (string * string))
     (children : list (string * TElem))
     (parent : option TElem)
     (selects : list (string * list TElem)).
Local Set Elimination Schemes.

Fixpoint assoc {V : Type} (key : string) (table : list (string * V)) : option V :=
  match table with
  | [] => None
  | (k, v) :: rest => if String.eqb key k then Some v else assoc key rest
  end.

Definition t_text (e : TElem) : option string :=
  match e with TE text _ _ _ _ _ => text end.
Definition t_tail (e : TElem) : option string :=
  match e with TE _ tail _ _ _ _ => tail end.
Definition t_get (e : TElem) (name : string) : option string :=
  match e with TE _ _ attrs _ _ _ => assoc name attrs end.
Definition t_find (e : TElem) (tag : string) : option TElem :=
  match e with TE _ _ _ children _ _ => assoc tag children end.
Definition t_getparent (e : TElem) : option TElem :=
  match e with TE _ _ _ _ parent _ => parent end.
Definition t_cssselect (e : TElem) (selector : string) : option (list TElem) :=
  match e with
  | TE _ _ _ _ _ selects =>
      Some (match assoc selector selects with Some found => found | None => [] end)
  end.

Fixpoint bytes_eqb (a b : list byte) : bool :=
  match a, b with
  | [], [] => true
  | x :: a', y :: b' => Byte.eqb x y && bytes_eqb a' b'
  | _, _ => false
  end.

Fixpoint t_fromstring (pages : list (list byte * TElem)) (doc : list byte)
  : option TElem :=
  match pages with
  | [] => None
  | (d, tree) :: rest => if bytes_eqb doc d then Some tree else t_fromstring rest doc
  end.

Definition lxml (pages : list (list byte * TElem)) : Lxml TElem := {|
  fromstring := t_fromstring pages;
  el_cssselect := t_cssselect;
  el_find := t_find;
  el_getparent := t_getparent;
  el_text := t_text;
  el_tail := t_tail;
  el_get := t_get
|}.

(** The extension of a path: from its last dot on. *)
Fixpoint ext_of (path : string) : option string :=
  match path with
  | EmptyString => None
  | String c rest =>
      match ext_of rest with
      | Some ext => Some ext
      | None => if Ascii.eqb c "." then Some path else None
      end
  end.

(** Path and template functions, enough for the default template. *)
Definition pylib : PyLib := {|
  os_path_join := fun a b => a +:+ "/" +:+ b;
  os_path_splitext := fun path =>
    (path, match ext_of path with Some ext => ext | None => EmptyString end);
  str_format := fun template kwargs =>
    if String.eqb template "{author}. {title}" then
      Ok (PyStr.fstr (match assoc "author" kwargs with Some v => v | None => None end)
          +:+ ". "
          +:+ PyStr.fstr (match assoc "title" kwargs with Some v => v | None => None end))
    else Err FormatValueError
|}.

(** A leaf element. *)
Definition leaf (text tail : option string) (attrs : list (string * string)) : TElem :=
  TE text tail attrs [] None [].

Definition anchor (text href : string) : TElem :=
  leaf (Some text) None [("href", href)].

(** A document in which the given selectors select the given elements. *)
Definition page (selects : list (string * list TElem)) : TElem :=
  TE None None [] [] None selects.

Definition paragraph (text : option string) : TElem := leaf text None [].

(** The index page: one letter. *)
Definition index_page : TElem := page [("#s1 a", [anchor "P" "/p"])].

(** An index page whose anchor text has two characters. *)
Definition long_index_page : TElem := page [("#s1 a", [anchor "AB" "/x"])].

(** The page of the letter P: one author matches the query. *)
Definition letter_page : TElem :=
  page [(search_selector "Pushkin", [anchor "Pushkin A." "/pushkin"])].

(** The summary element of a book list: its text is the range shown, the
    total is in a [b] element of its grandparent. *)
Definition summary (shown total : string) : TElem :=
  TE (Some shown) None [] []
     (Some (TE None None [] []
              (Some (TE None None [] [("b", leaf (Some total) None [])] None []))
              []))
     [].

(** The book list of the author: one book; and its only numbered page. *)
Definition list_page : TElem :=
  page [(".numShown73", [summary "1-20" "1"]);
        ("#allEntries .My a", [anchor "Some Title" "/book1"])].

(** A book list that announces no book. *)
Definition empty_list_page : TElem :=
  page [(".numShown73", [summary "0-0" "0"])].

(** The author anchor of a book page, with the raw title after it. *)
Definition author_anchor : TElem :=
  leaf (Some "Pushkin A.") (Some " Some Title.. ") [("href", "/pushkin")].

Definition book_heading : TElem :=
  TE None None [] [("a", author_anchor)] None [].

(** Four paragraphs: the second holds a single space, the third has no
    text. *)
Definition book_paragraphs : list TElem :=
  [paragraph (Some "a"); paragraph (Some " "); paragraph None; paragraph (Some "b")].

Definition epub_link : TElem := anchor "epub" "/files/book1.epub".

(** The container of a book page: the heading, the paragraphs, one epub
    link and no fb2 link. *)
Definition book_container : TElem :=
  TE None None [] [("h1", book_heading)] None
     [("p", book_paragraphs); (epub_selector, [epub_link])].

Definition book_page : TElem := page [(".eText", [book_container])].

(** A document with two elements of class [eText]. *)
Definition double_page : TElem :=
  page [(".eText", [paragraph (Some "x"); paragraph (Some "y")])].

Definition doc (n : byte) : list byte := [n].

Definition pages : list (list byte * TElem) :=
  [(doc x01, index_page); (doc x02, letter_page); (doc x03, list_page);
   (doc x04, book_page); (doc x05, long_index_page); (doc x06, empty_list_page);
   (doc x07, double_page)].

Definition epub_bytes : list byte := [x50; x4b; x03; x04; x0a].

Definition not_found_bytes : list byte := [x34; x30; x34].

(** A site as a table from absolute URLs to responses. *)
Definition site_env (table : list (string * Response)) : Env := {|
  http := fun _ url _ => assoc url table;
  stdin := fun _ _ => None;
  os_denies := fun _ _ => false
|}.

Definition site : list (string * Response) :=
  [("https://fb2-epub.ru/", mkResponse 200 (doc x01));
   ("https://fb2-epub.ru/p", mkResponse 200 (doc x02));
   ("https://fb2-epub.ru/pushkin", mkResponse 200 (doc x03));
   ("https://fb2-epub.ru/pushkin-1", mkResponse 200 (doc x03));
   ("https://fb2-epub.ru/book1", mkResponse 200 (doc x04));
   ("https://fb2-epub.ru/files/book1.epub", mkResponse 200 epub_bytes);
   ("https://fb2-epub.ru/empty", mkResponse 200 (doc x06));
   ("https://fb2-epub.ru/missing.epub", mkResponse 404 not_found_bytes)].

Definition env : Env := site_env site.

(** The same site with the other index page. *)
Definition long_index_env : Env :=
  site_env [("https://fb2-epub.ru/", mkResponse 200 (doc x05))].

(** Nothing fetched yet; the destination directory exists and is empty. *)
Definition start : State :=
  {| trace := []; fs := {| files := ∅; dirs := {["/dest"]} |} |}.

(** The state after one request from [start]. *)
Definition fetched (url : string) : State :=
  log (HttpGet url false) (fs start) start.

(** The iterator over the book list of the author, as [BookIterator]
    builds it. *)
Definition pushkin_books : BookIterator :=
  {| base_url := Some "/pushkin"; show_count := 20; count := 1 |}.

Definition no_books : BookIterator :=
  {| base_url := Some "/empty"; show_count := 0; count := 0 |}.

Definition site_lxml : Lxml TElem := lxml pages.

(** *** More pages *)

(** A letter page on which two authors match the query Push. *)
Definition two_authors : list TElem :=
  [anchor "Pushkin A." "/pushkin"; anchor "Pushkov B." "/pushkov"].

Definition two_authors_page : TElem := page [(search_selector "Push", two_authors)].

(** An index page with an anchor that has no text. *)
Definition textless_index_page : TElem :=
  page [("#s1 a", [anchor "P" "/p"; leaf None None [("href", "/q")]])].

(** An index page whose anchors have no [href], respectively an empty one. *)
Definition hrefless_index_page : TElem :=
  page [("#s1 a", [leaf (Some "Z") None []; leaf (Some "Y") None [("href", EmptyString)]])].

(** A book page without container. *)
Definition bare_page : TElem := page [].

(** A book container with two epub links. *)
Definition two_links : list TElem :=
  [anchor "epub" "/files/a.epub"; anchor "epub" "/files/b.epub"].

Definition two_links_container : TElem :=
  TE None None [] [("h1", book_heading)] None
     [("p", book_paragraphs); (epub_selector, two_links)].

Definition two_links_page : TElem := page [(".eText", [two_links_container])].

(** A book page whose container has no heading. *)
Definition headless_container : TElem := paragraph (Some "x").

Definition headless_page : TElem := page [(".eText", [headless_container])].

(** A letter page with one author, whose book list announces no book. *)
Definition bookless_letter_page : TElem :=
  page [(search_selector "Pnin", [anchor "Pnin T." "/empty"])].

Definition more_pages : list (list byte * TElem) :=
  pages ++ [(doc x08, two_authors_page); (doc x09, textless_index_page);
            (doc x0a, hrefless_index_page); (doc x0b, bare_page);
            (doc x0c, two_links_page); (doc x0d, headless_page);
            (doc x0e, bookless_letter_page)].

Definition more_lxml : Lxml TElem := lxml more_pages.

(** The site with the letter page of the two authors; the user chooses the
    first line of the menu. *)
Definition menu_env : Env := {|
  http := fun _ url _ =>
    assoc url (("https://fb2-epub.ru/p", mkResponse 200 (doc x08))
               :: ("https://fb2-epub.ru/bare", mkResponse 200 (doc x0b))
               :: ("https://fb2-epub.ru/double", mkResponse 200 (doc x07))
               :: ("https://fb2-epub.ru/twolinks", mkResponse 200 (doc x0c))
               :: ("https://fb2-epub.ru/headless", mkResponse 200 (doc x0d))
               :: site);
  stdin := fun _ _ => Some 1;
  os_denies := fun _ _ => false
|}.

Definition textless_index_env : Env :=
  site_env [("https://fb2-epub.ru/", mkResponse 200 (doc x09))].

Definition hrefless_index_env : Env :=
  site_env [("https://fb2-epub.ru/", mkResponse 200 (doc x0a))].

(** The site with the letter page of the author without books. *)
Definition bookless_env : Env :=
  site_env (("https://fb2-epub.ru/p", mkResponse 200 (doc x0e)) :: site).

(** A site that is down. *)
Definition down_env : Env := site_env [].

(** A book without download links. *)
Definition linkless_book : gmap string (option string) :=
  <["title" := Some "T"]> (<["author" := Some "A"]> ∅).

(** A book with an epub link. *)
Definition epub_book : gmap string (option string) :=
  <["epub_url" := Some "https://fb2-epub.ru/files/book1.epub"]> linkless_book.

(** A download directory that holds a file already. *)
Definition used : State :=
  {| trace := [];
     fs := {| files := {["/dest/old.epub" := epub_bytes]}; dirs := {["/dest"]} |} |}.

(** *** Book lists of several pages *)

(** A list that announces 45 books, 20 to the page; a page with two
    entries and one with a single entry. *)
Definition full_list_page : TElem :=
  page [(".numShown73", [summary "1-20" "45"]);
        ("#allEntries .My a", [anchor "Some Title" "/book1"; anchor "Some Title" "/book1"])].

Definition last_list_page : TElem :=
  page [(".numShown73", [summary "41-45" "45"]);
        ("#allEntries .My a", [anchor "Some Title" "/book1"])].

(** A list that announces [2 ^ 53 + 1] books, [2 ^ 53] to the page; its
    pages have no entries. *)
Definition huge_list_page : TElem :=
  page [(".numShown73", [summary "1-9007199254740992" "9007199254740993"])].

Definition list_pages : list (list byte * TElem) :=
  more_pages ++ [(doc x0f, full_list_page); (doc x10, last_list_page);
                 (doc x11, huge_list_page)].

Definition list_lxml : Lxml TElem := lxml list_pages.


Definition many_books : BookIterator :=
  {| base_url := Some "/many"; show_count := 20; count := 45 |}.


End Toy.

(** * Properties *)

(** ** The string functions on examples *)

Example strip_title :
  PyStr.strip_chars (PyStr.whitespace +:+ ".") " Some Title.. " = "Some Title".
Proof. reflexivity. Qed.

Example strip_keeps_inner : PyStr.strip_chars ". " ". a. b ." = "a. b".
Proof. reflexivity. Qed.

(** The no-break space (160) is not in [string.whitespace]: [strip()]
    removes it, [strip(whitespace + '.')] does not. *)
Example strip_no_break_space :
  PyStr.strip (String "160" "T") = "T"
  /\ PyStr.strip_chars (PyStr.whitespace +:+ ".") (String "160" "T") = String "160" "T".
Proof. split; reflexivity. Qed.

Example split_pop_range :
  PyStr.split_pop "-" "1-20" = "20" /\ PyStr.split_pop "-" "20" = "20"
  /\ PyStr.split "-" "1-20" = ["1"; "20"].
Proof. repeat split; reflexivity. Qed.

Example int_examples :
  PyStr.int " 45 " = Some 45 /\ PyStr.int "-7" = Some (-7)
  /\ PyStr.int "1_000" = Some 1000 /\ PyStr.int "1__0" = None
  /\ PyStr.int EmptyString = None /\ PyStr.int "x" = None.
Proof. repeat split; reflexivity. Qed.

(** [int] does not skip the separators 28..31, which [str.strip] removes,
    and it refuses a literal of more than 4300 digits. *)
Example int_strictness :
  PyStr.strip (String (ascii_of_nat 31) "7") = "7"
  /\ PyStr.int (String (ascii_of_nat 31) "7") = None
  /\ PyStr.int (String "7" (String (ascii_of_nat 28) EmptyString)) = None
  /\ PyStr.int (String (ascii_of_nat 160) "7") = Some 7
  /\ is_Some (PyStr.int (string_of_list_ascii (replicate 4300 "1"%char)))
  /\ PyStr.int (string_of_list_ascii (replicate 4301 "1"%char)) = None
  /\ PyStr.int (String "-" (string_of_list_ascii (replicate 4301 "0"%char))) = None.
Proof. repeat split; try (vm_compute; reflexivity). vm_compute. eexists. reflexivity. Qed.

Example lower_examples : PyStr.lower "Ab-Z" = "ab-z".
Proof. reflexivity. Qed.

Example ceil_div_examples :
  ceil_div 45 20 = 3 /\ ceil_div 40 20 = 2 /\ ceil_div 1 20 = 1 /\ ceil_div (-5) 20 = 0.
Proof. repeat split; reflexivity. Qed.

Example range_examples : range 1 4 = [1; 2; 3] /\ range 1 1 = [].
Proof. split; reflexivity. Qed.

(** ** Running programs *)

Section RunFacts.
Context {Elem : Type}.

Local Abbreviation Prog := (Prog Elem).
Local Abbreviation Gen := (Gen Elem).

Lemma run_bind {A B : Type} (env : Env) (p : Prog A) (f : A -> Prog B) (st : State) :
  run env (bind p f) st =
  match run env p st with
  | (Ok a, st') => run env (f a) st'
  | (Err e, st') => (Err e, st')
  end.
Proof.
  revert st. induction p as [a | e | e k IH]; intros st; simpl; trivial.
  destruct (handle env e st) as [[r | x] st']; [apply IH | reflexivity].
Qed.

Lemma run_mbind {A B : Type} (env : Env) (p : Prog A) (f : A -> Prog B) (st : State) :
  run env (p ≫= f) st =
  match run env p st with
  | (Ok a, st') => run env (f a) st'
  | (Err e, st') => (Err e, st')
  end.
Proof. apply run_bind. Qed.

(** Every call is appended to the trace, whatever its outcome. *)
Lemma handle_trace (env : Env) (e : Eff) (st : State) :
  trace (handle (Elem := Elem) env e st).2 = trace st ++ [e].
Proof.
  destruct e; simpl; trivial;
    repeat match goal with |- context [if ?b then _ else _] => destruct b end;
    reflexivity.
Qed.

Lemma run_or_raise {A : Type} (env : Env) (e : exn Elem) (x : option A) (st : State) :
  run env (or_raise e x) st
  = (match x with Some a => Ok a | None => Err e end, st).
Proof. destruct x; reflexivity. Qed.

Lemma run_attr {A : Type} (env : Env) (x : option A) (st : State) :
  run env (attr x) st
  = (match x with Some a => Ok a | None => Err (AttributeError : exn Elem) end, st).
Proof. destruct x; reflexivity. Qed.

End RunFacts.

(** ** The HTML query layer *)

Section QueryFacts.
Context {Elem : Type} `{!Lxml Elem}.

(** With a tree at hand [findall] is the selection in that tree and makes
    no request. *)
Lemma run_findall_tree (env : Env) (selector : string) (url : option string)
    (tree : Elem) (st : State) :
  run env (findall selector url (Some tree)) st
  = (match el_cssselect tree selector with
     | Some found => Ok found
     | None => Err SelectorError
     end, st).
Proof. unfold findall. rewrite run_mbind. simpl. apply run_or_raise. Qed.

(** Without a tree [findall] makes exactly one request, for the absolute
    form of the URL, whatever comes of it. *)
Lemma run_findall_url (env : Env) (selector : string) (url : option string)
    (st : State) :
  (run env (findall selector url None) st).2
  = log (HttpGet (get_abs_url url) false) (fs st) st.
Proof.
  unfold findall, send, requests_get, call, make_tree.
  rewrite !run_mbind. simpl.
  destruct (http env (trace st) (get_abs_url url) false) as [resp |]; simpl; trivial.
  rewrite run_or_raise.
  destruct (fromstring (content resp)) as [tree |]; simpl; trivial.
  rewrite run_or_raise. destruct (el_cssselect tree selector); reflexivity.
Qed.

Lemma run_findone (env : Env) (selector : string) (url : option string)
    (tree : option Elem) (st : State) :
  run env (findone selector url tree) st =
  match run env (findall selector url tree) st with
  | (Ok found, st') =>
      (match found with
       | [] => Ok None
       | [e] => Ok (Some e)
       | _ => Err (MultipleElementsFoundError found)
       end, st')
  | (Err e, st') => (Err e, st')
  end.
Proof.
  unfold findone. rewrite run_mbind.
  destruct (run env (findall selector url tree) st) as [[found | e] st']; trivial.
  destruct found as [| e1 [| e2 rest]]; reflexivity.
Qed.

(** C2. Whatever [findall] selects for a selector, in a given tree or in
    the document behind a URL: [findone] returns [None] when nothing is
    selected, the element when exactly one is selected, and raises
    [MultipleElementsFoundError] holding all the selected elements when two
    or more are. *)
Theorem findone_zero_one_many (env : Env) (selector : string) (url : option string)
    (tree : option Elem) (st st' : State) (found : list Elem) :
  run env (findall selector url tree) st = (Ok found, st') ->
  (found = [] -> run env (findone selector url tree) st = (Ok None, st'))
  /\ (forall e, found = [e] ->
        run env (findone selector url tree) st = (Ok (Some e), st'))
  /\ ((2 <= length found)%nat ->
        run env (findone selector url tree) st
        = (Err (MultipleElementsFoundError found), st')).
Proof.
  intros Hall. rewrite run_findone, Hall. repeat split.
  - intros ->. reflexivity.
  - intros e ->. reflexivity.
  - destruct found as [| e1 [| e2 rest]]; simpl; [lia | lia | reflexivity].
Qed.

End QueryFacts.

(** ** Stripping *)

Section StripFacts.
Variable p : ascii -> bool.

Lemma append_cons (c : ascii) (a b : string) :
  String c a +:+ b = String c (a +:+ b).
Proof. reflexivity. Qed.

Lemma append_empty (b : string) : EmptyString +:+ b = b.
Proof. reflexivity. Qed.

Lemma lstrip_by_split (s : string) :
  exists pre, s = pre +:+ PyStr.lstrip_by p s /\ PyStr.all_chars p pre = true.
Proof.
  induction s as [| c rest [pre [Heq Hall]]]; simpl.
  - exists EmptyString. split; reflexivity.
  - destruct (p c) eqn:Hc.
    + exists (String c pre). simpl. rewrite Hc, Hall, append_cons, <- Heq.
      split; reflexivity.
    + exists EmptyString. split; reflexivity.
Qed.

Lemma lstrip_by_head (s : string) :
  PyStr.clean_head p (PyStr.lstrip_by p s) = true.
Proof.
  induction s as [| c rest IH]; simpl; trivial.
  destruct (p c) eqn:Hc; simpl; [assumption | now rewrite Hc].
Qed.

Lemma rstrip_by_split (s : string) :
  exists post, s = PyStr.rstrip_by p s +:+ post /\ PyStr.all_chars p post = true.
Proof.
  induction s as [| c rest [post [Heq Hall]]]; simpl.
  - exists EmptyString. split; reflexivity.
  - destruct (PyStr.rstrip_by p rest) as [| d kept] eqn:Hr.
    + rewrite append_empty in Heq. subst post. destruct (p c) eqn:Hc.
      * exists (String c rest). simpl. rewrite Hc, Hall. split; reflexivity.
      * exists rest. split; [reflexivity | assumption].
    + exists post. rewrite append_cons, <- Heq. split; [reflexivity | assumption].
Qed.

Lemma rstrip_by_last (s : string) :
  PyStr.clean_last p (PyStr.rstrip_by p s) = true.
Proof.
  induction s as [| c rest IH]; simpl; trivial.
  destruct (PyStr.rstrip_by p rest) as [| d kept] eqn:Hr.
  - destruct (p c) eqn:Hc; simpl; [reflexivity | now rewrite Hc].
  - exact IH.
Qed.

Lemma rstrip_by_head (s : string) :
  PyStr.clean_head p s = true -> PyStr.clean_head p (PyStr.rstrip_by p s) = true.
Proof.
  destruct s as [| c rest]; simpl; trivial. intros Hc.
  destruct (PyStr.rstrip_by p rest); [destruct (p c) eqn:E |]; simpl; rewrite ?E; trivial.
Qed.

(** What is stripped are a prefix and a suffix made of characters that
    satisfy [p], and what is left neither begins nor ends with one. *)
Lemma strip_by_spec (s : string) :
  exists pre post,
    s = pre +:+ PyStr.strip_by p s +:+ post
    /\ PyStr.all_chars p pre = true /\ PyStr.all_chars p post = true
    /\ PyStr.clean_head p (PyStr.strip_by p s) = true
    /\ PyStr.clean_last p (PyStr.strip_by p s) = true.
Proof.
  unfold PyStr.strip_by.
  destruct (lstrip_by_split s) as [pre [Hs Hpre]].
  destruct (rstrip_by_split (PyStr.lstrip_by p s)) as [post [Hl Hpost]].
  exists pre, post. repeat split; trivial.
  - rewrite <- Hl. exact Hs.
  - apply rstrip_by_head, lstrip_by_head.
  - apply rstrip_by_last.
Qed.

End StripFacts.

(** ** The book detail extractor *)

Section BookFacts.
Context {Elem : Type} `{!Lxml Elem}.

Lemma findone_link (env : Env) (elem : Elem) (selector : string) (found : list Elem)
    (st : State) :
  el_cssselect elem selector = Some found -> (length found <= 1)%nat ->
  run env (findone selector None (Some elem)) st = (Ok (head found), st).
Proof.
  intros Hsel Hlen. rewrite run_findone, run_findall_tree, Hsel.
  destruct found as [| e1 [| e2 rest]]; simpl in *; trivial. lia.
Qed.

(** On a page of the expected shape [get_book] returns a book, with these
    fields. *)
Lemma run_get_book (env : Env) (url : option string) (st st' : State)
    (elem h1 author : Elem) (raw : string) (paragraphs fb2 epub : list Elem) :
  run env (findone ".eText" url None) st = (Ok (Some elem), st') ->
  book_shape elem h1 author raw paragraphs fb2 epub ->
  exists book,
    run env (get_book url) st = (Ok book, st')
    /\ book !! "author" = Some (el_text author)
    /\ book !! "author_url" = Some (Some (get_abs_url (el_get author "href")))
    /\ book !! "title"
       = Some (Some (PyStr.strip_chars (PyStr.whitespace +:+ ".") raw))
    /\ book !! "description"
       = Some (Some (PyStr.join PyStr.newline (description_lines paragraphs)))
    /\ book !! "fb2_url"
       = (fun a => Some (get_abs_url (el_get a "href"))) <$> head fb2
    /\ book !! "epub_url"
       = (fun a => Some (get_abs_url (el_get a "href"))) <$> head epub.
Proof.
  intros Hone (Hh1 & Ha & Htail & Hp & Hfb2 & Hlfb2 & Hepub & Hlepub).
  unfold get_book.
  rewrite run_mbind, Hone. rewrite run_mbind, run_attr.
  rewrite run_mbind, run_attr, Hh1. rewrite run_mbind, run_attr, Ha.
  rewrite run_mbind, run_attr, Htail.
  rewrite run_mbind, run_findall_tree, Hp.
  rewrite run_mbind, (findone_link _ _ _ _ _ Hfb2 Hlfb2).
  rewrite run_mbind, (findone_link _ _ _ _ _ Hepub Hlepub).
  eexists. split; [reflexivity |].
  destruct (head fb2), (head epub); simpl; repeat split; reflexivity.
Qed.

End BookFacts.

Section BookClaims.
Context {Elem : Type} `{!Lxml Elem}.

(** C5. On a book page of the expected shape, whose text after the
    author anchor is [raw], [get_book] returns a book whose title is [raw]
    without a prefix and a suffix that consist of whitespace characters and
    full stops, and the title itself neither begins nor ends with such a
    character. The raw text " Some Title.. " gives the title "Some Title". *)
Theorem get_book_title_stripped (env : Env) (url : option string) (st st' : State)
    (elem h1 author : Elem) (raw : string) (paragraphs fb2 epub : list Elem) :
  run env (findone ".eText" url None) st = (Ok (Some elem), st') ->
  book_shape elem h1 author raw paragraphs fb2 epub ->
  exists book title,
    run env (get_book url) st = (Ok book, st')
    /\ book !! "title" = Some (Some title)
    /\ (exists pre post,
          raw = pre +:+ title +:+ post
          /\ PyStr.all_chars title_strippable pre = true
          /\ PyStr.all_chars title_strippable post = true)
    /\ PyStr.clean_head title_strippable title = true
    /\ PyStr.clean_last title_strippable title = true
    /\ (raw = " Some Title.. " -> title = "Some Title").
Proof.
  intros Hone Hshape.
  destruct (run_get_book env url st st' _ _ _ _ _ _ _ Hone Hshape)
    as (book & Hrun & _ & _ & Htitle & _).
  exists book, (PyStr.strip_chars (PyStr.whitespace +:+ ".") raw).
  destruct (strip_by_spec title_strippable raw)
    as (pre & post & Hraw & Hpre & Hpost & Hhead & Hlast).
  repeat split; trivial.
  - exists pre, post. repeat split; trivial.
  - intros ->. reflexivity.
Qed.

Lemma omap_cons_eq {A B : Type} (f : A -> option B) (x : A) (l : list A) :
  omap f (x :: l)
  = match f x with Some y => y :: omap f l | None => omap f l end.
Proof. reflexivity. Qed.

Lemma description_lines_spec (paragraphs : list Elem) :
  description_lines paragraphs
  = PyStr.strip <$> filter (fun t => t <> EmptyString) (omap el_text paragraphs).
Proof.
  unfold description_lines.
  induction paragraphs as [| e rest IH]; [reflexivity |].
  rewrite !omap_cons_eq.
  destruct (el_text e) as [[| c t] |]; cbn [PyStr.truthy fmap option_fmap option_map].
  - rewrite filter_cons_False by (intros Hne; now apply Hne). exact IH.
  - rewrite filter_cons_True by discriminate. rewrite fmap_cons. now rewrite IH.
  - exact IH.
Qed.

(** C6, as amended. On a book page of the expected shape [get_book]
    returns a book whose description is made of the paragraphs whose text is
    present and not empty, in document order: the text of each, stripped,
    and a line feed between two of them.  (A text of whitespace only is not
    empty; once stripped it is an empty entry.) *)
Theorem get_book_description (env : Env) (url : option string) (st st' : State)
    (elem h1 author : Elem) (raw : string) (paragraphs fb2 epub : list Elem) :
  run env (findone ".eText" url None) st = (Ok (Some elem), st') ->
  book_shape elem h1 author raw paragraphs fb2 epub ->
  exists book,
    run env (get_book url) st = (Ok book, st')
    /\ book !! "description" = Some (Some (spec_description paragraphs)).
Proof.
  intros Hone Hshape.
  destruct (run_get_book env url st st' _ _ _ _ _ _ _ Hone Hshape)
    as (book & Hrun & _ & _ & _ & Hdescr & _).
  exists book. split; trivial.
  unfold spec_description. now rewrite <- description_lines_spec.
Qed.

End BookClaims.

(** ** The catalog index *)

Section IndexFacts.
Context {Elem : Type} `{!Lxml Elem}.

Lemma last_anchor_for_cons (key : string) (a : Elem) (rest : list Elem) :
  last_anchor_for key (a :: rest)
  = match last_anchor_for key rest with
    | Some b => Some b
    | None => if decide (PyStr.lower <$> el_text a = Some key) then Some a else None
    end.
Proof.
  unfold last_anchor_for. rewrite filter_cons.
  destruct (decide (PyStr.lower <$> el_text a = Some key)); trivial.
  - rewrite last_cons. reflexivity.
  - destruct (last _); reflexivity.
Qed.

(** The comprehension: a later anchor overwrites an earlier one with the
    same key. *)
Lemma index_of_anchors_spec (anchors : list Elem) (acc : gmap string (option string)) :
  Forall (fun a => is_Some (el_text a)) anchors ->
  exists index,
    index_of_anchors anchors acc = Ret index
    /\ forall key,
         index !! key
         = match last_anchor_for key anchors with
           | Some a => Some (el_get a "href")
           | None => acc !! key
           end.
Proof.
  intros Hall. revert acc.
  induction Hall as [| a rest [t Ht] _ IH]; intros acc.
  - exists acc. split; reflexivity.
  - destruct (IH (<[PyStr.lower t := el_get a "href"]> acc)) as (index & Hrun & Hkeys).
    exists index. split.
    + simpl. rewrite Ht. exact Hrun.
    + intros key. rewrite Hkeys, last_anchor_for_cons, Ht. simpl.
      destruct (last_anchor_for key rest); trivial.
      destruct (decide (Some (PyStr.lower t) = Some key)) as [Heq | Hne].
      * injection Heq as ->. apply lookup_insert_eq.
      * apply lookup_insert_ne. congruence.
Qed.

Lemma last_anchor_for_is_Some (key : string) (anchors : list Elem) :
  is_Some (last_anchor_for key anchors)
  <-> key ∈ omap (fun a => PyStr.lower <$> el_text a) anchors.
Proof.
  unfold last_anchor_for. rewrite last_is_Some, list_elem_of_omap. split.
  - intros Hne. destruct (filter _ anchors) as [| a l] eqn:Hf; [done |].
    assert (Ha : a ∈ filter (fun a => PyStr.lower <$> el_text a = Some key) anchors)
      by (rewrite Hf; left).
    apply list_elem_of_filter in Ha as [Hkey Hin]. eauto.
  - intros (a & Hin & Hkey) Hnil.
    assert (Ha : a ∈ filter (fun a => PyStr.lower <$> el_text a = Some key) anchors)
      by (apply list_elem_of_filter; auto).
    rewrite Hnil in Ha. inversion Ha.
Qed.

(** C4, as amended. When every anchor of the index page has a text,
    [get_index] returns a mapping whose keys are exactly the lowercased
    texts of the anchors (the whole text, not its first character), and
    each key is mapped to the [href] attribute of the last anchor with that
    lowercased text. *)
Theorem get_index_keys (env : Env) (st st' : State) (anchors : list Elem) :
  run env (findall "#s1 a" (Some "/") None) st = (Ok anchors, st') ->
  Forall (fun a => is_Some (el_text a)) anchors ->
  exists index,
    run env get_index st = (Ok index, st')
    /\ dom index = list_to_set (omap (fun a => PyStr.lower <$> el_text a) anchors)
    /\ forall key,
         index !! key
         = (fun a => el_get a "href") <$> last_anchor_for key anchors.
Proof.
  intros Hfind Htexts.
  destruct (index_of_anchors_spec anchors ∅ Htexts) as (index & Hrun & Hkeys).
  assert (Hlook : forall key,
    index !! key = (fun a => el_get a "href") <$> last_anchor_for key anchors).
  { intros key. rewrite Hkeys. destruct (last_anchor_for key anchors); trivial. }
  exists index. repeat split; trivial.
  - unfold get_index. rewrite run_mbind, Hfind, Hrun. reflexivity.
  - apply set_eq. intros key.
    rewrite elem_of_dom, elem_of_list_to_set, Hlook, fmap_is_Some.
    apply last_anchor_for_is_Some.
Qed.

End IndexFacts.

(** ** Generators *)

Section GenFacts.
Context {Elem : Type}.

Local Abbreviation Prog := (Prog Elem).
Local Abbreviation Gen := (Gen Elem).

Lemma run_tuple_gen_bind {A Y : Type} (env : Env) (p : Prog A) (f : A -> Gen Y)
    (st : State) :
  run env (tuple (gen_bind p f)) st =
  match run env p st with
  | (Ok a, st') => run env (tuple (f a)) st'
  | (Err e, st') => (Err e, st')
  end.
Proof.
  revert st. induction p as [a | e | e k IH]; intros st; simpl; trivial.
  destruct (handle env e st) as [[r | x] st']; [apply IH | reflexivity].
Qed.


Lemma no_effects_or_raise {A : Type} (e : exn Elem) (x : option A) :
  no_effects (or_raise e x).
Proof. intros env st. now rewrite run_or_raise. Qed.

Lemma no_effects_bind {A B : Type} (p : Prog A) (f : A -> Prog B) :
  no_effects p -> (forall a, no_effects (f a)) -> no_effects (p ≫= f).
Proof.
  intros Hp Hf env st. rewrite run_mbind. specialize (Hp env st).
  destruct (run env p st) as [[a | e] st']; simpl in *; subst st'; [apply Hf | reflexivity].
Qed.

(** After [p ≫= f] with [f] free of calls, the state is the one after [p]. *)
Lemma run_bind_no_effects {A B : Type} (env : Env) (p : Prog A) (f : A -> Prog B)
    (st : State) :
  (forall a, no_effects (f a)) -> (run env (p ≫= f) st).2 = (run env p st).2.
Proof.
  intros Hf. rewrite run_mbind.
  destruct (run env p st) as [[a | e] st']; simpl; [apply Hf | reflexivity].
Qed.

End GenFacts.

Create HintDb effects.
#[local] Hint Resolve no_effects_or_raise : effects.

Ltac no_effects_steps :=
  repeat first
    [ solve [auto with effects]
    | apply no_effects_or_raise
    | apply no_effects_bind; [| intros ?]
    | intros ? ?; reflexivity ].

(** ** Which requests the parser makes *)

Section RequestFacts.
Context {Elem : Type} `{!Lxml Elem}.

Lemma no_effects_findall_tree (selector : string) (url : option string) (tree : Elem) :
  no_effects (findall selector url (Some tree)).
Proof. intros env st. now rewrite run_findall_tree. Qed.

Lemma no_effects_findone_tree (selector : string) (url : option string) (tree : Elem) :
  no_effects (findone selector url (Some tree)).
Proof.
  intros env st. rewrite run_findone, run_findall_tree.
  destruct (el_cssselect tree selector) as [[| e1 [| e2 rest]] |]; reflexivity.
Qed.

Lemma no_effects_py_int (x : option string) : no_effects (Elem := Elem) (py_int x).
Proof. destruct x; [apply no_effects_or_raise | intros env st; reflexivity]. Qed.

Lemma no_effects_index_of_anchors (anchors : list Elem)
    (acc : gmap string (option string)) :
  no_effects (index_of_anchors anchors acc).
Proof.
  revert acc. induction anchors as [| a rest IH]; intros acc; simpl.
  - intros env st. reflexivity.
  - apply no_effects_bind; [apply no_effects_or_raise | intros t; apply IH].
Qed.

Lemma run_findone_url (env : Env) (selector : string) (url : option string)
    (st : State) :
  (run env (findone selector url None) st).2
  = log (HttpGet (get_abs_url url) false) (fs st) st.
Proof.
  rewrite run_findone. rewrite <- (run_findall_url env selector url st).
  destruct (run env (findall selector url None) st) as [[found | e] st']; reflexivity.
Qed.

Hint Resolve no_effects_findall_tree no_effects_findone_tree no_effects_py_int
  no_effects_index_of_anchors : effects.


(** Building a [BookIterator] makes one request, for the base URL. *)
Lemma run_BookIterator_init_state (env : Env) (url : option string) (st : State) :
  (run env (BookIterator_init url) st).2
  = log (HttpGet (get_abs_url url) false) (fs st) st.
Proof.
  unfold BookIterator_init. rewrite run_bind_no_effects; [apply run_findone_url |].
  intros elem. no_effects_steps.
Qed.

(** [get_index] makes one request, for the root page. *)
Lemma run_get_index_state (env : Env) (st : State) :
  (run env get_index st).2
  = log (HttpGet (get_abs_url (Some "/")) false) (fs st) st.
Proof.
  unfold get_index. rewrite run_bind_no_effects; [apply run_findall_url |].
  intros anchors. apply no_effects_index_of_anchors.
Qed.

End RequestFacts.

(** ** Search *)

Section SearchClaims.
Context {Elem : Type} `{!Lxml Elem}.

(** C7. When the index has no key for the lowercased first character of
    the query, iterating [search(query)] to the end yields nothing and
    raises nothing, and the only request made is the one for the index
    page: no letter page is fetched. *)
Theorem search_unknown_letter (env : Env) (st st1 : State) (c : ascii) (rest : string)
    (index : gmap string (option string)) :
  run env get_index st = (Ok index, st1) ->
  index !! PyStr.lower (String c EmptyString) = None ->
  run env (search (String c rest) ≫= tuple) st = (Ok [], st1)
  /\ trace st1 = trace st ++ [HttpGet (get_abs_url (Some "/")) false]
  /\ fs st1 = fs st.
Proof.
  intros Hindex Hkey. split.
  - unfold search, new_generator. rewrite run_mbind. cbn [run]. unfold search_body.
    rewrite run_tuple_gen_bind, Hindex. unfold dict_get. rewrite Hkey. reflexivity.
  - pose proof (run_get_index_state env st) as Hst. rewrite Hindex in Hst.
    simpl in Hst. subst st1. split; reflexivity.
Qed.

End SearchClaims.

(** ** The quotient of the page count *)

Section DivisionFacts.

Lemma ceil_div_bounds (a b : Z) :
  0 < b -> (ceil_div a b - 1) * b < a <= ceil_div a b * b.
Proof.
  intros Hb. unfold ceil_div.
  pose proof (Z.div_mod (- a) b) as Hdiv.
  pose proof (Z.mod_pos_bound (- a) b Hb) as Hmod. nia.
Qed.

Lemma ceil_div_unique (a b k : Z) :
  0 < b -> (k - 1) * b < a <= k * b -> ceil_div a b = k.
Proof.
  intros Hb Hk. pose proof (ceil_div_bounds a b Hb) as Hc. nia.
Qed.

Lemma round_half_even_le (n d z : Z) :
  0 < d -> n <= z * d -> round_half_even n d <= z.
Proof.
  intros Hd Hn. unfold round_half_even.
  pose proof (Z.div_mod n d) as Hdiv. pose proof (Z.mod_pos_bound n d Hd) as Hmod.
  repeat match goal with |- context [if ?b then _ else _] => destruct b eqn:? end;
    rewrite ?Z.ltb_lt, ?Z.ltb_ge in *; nia.
Qed.

Lemma round_half_even_gt (n d z : Z) :
  0 < d -> (2 * z + 1) * d < 2 * n -> z + 1 <= round_half_even n d.
Proof.
  intros Hd Hn. unfold round_half_even.
  pose proof (Z.div_mod n d) as Hdiv. pose proof (Z.mod_pos_bound n d Hd) as Hmod.
  repeat match goal with |- context [if ?b then _ else _] => destruct b eqn:? end;
    rewrite ?Z.ltb_lt, ?Z.ltb_ge in *; nia.
Qed.

Lemma round_half_even_nonneg (n d : Z) :
  0 <= n -> 0 < d -> 0 <= round_half_even n d.
Proof.
  intros Hn Hd. unfold round_half_even.
  pose proof (Z.div_pos n d Hn Hd).
  repeat match goal with |- context [if ?b then _ else _] => destruct b eqn:? end; lia.
Qed.

Lemma round_half_even_le_num (n d : Z) :
  0 <= n -> 0 < d -> round_half_even n d <= n.
Proof. intros Hn Hd. apply round_half_even_le; [assumption | nia]. Qed.

(** The exponent lies within one of the difference of the binary
    logarithms; when it is not negative, that power of two times the
    denominator is within the numerator. *)
Lemma quotient_exponent_spec (a b : Z) :
  0 < a -> 0 < b ->
  Z.log2 a - Z.log2 b - 1 <= quotient_exponent a b <= Z.log2 a - Z.log2 b
  /\ (0 <= quotient_exponent a b -> b * 2 ^ quotient_exponent a b <= a).
Proof.
  intros Ha Hb. unfold quotient_exponent.
  destruct (Z.log2_spec a Ha) as [Hla1 Hla2]. destruct (Z.log2_spec b Hb) as [Hlb1 Hlb2].
  pose proof (Z.log2_nonneg a) as Hna. pose proof (Z.log2_nonneg b) as Hnb.
  set (d := Z.log2 a - Z.log2 b).
  destruct (0 <=? d) eqn:Hd.
  - apply Z.leb_le in Hd. destruct (b * 2 ^ d <=? a) eqn:Hle.
    + apply Z.leb_le in Hle. split; [lia | auto].
    + split; [lia |]. intros Hd1.
      assert (Hpow : 2 ^ Z.log2 a = 2 ^ Z.log2 b * 2 * 2 ^ (d - 1)).
      { replace (Z.log2 a) with (Z.log2 b + 1 + (d - 1)) by lia.
        rewrite !Z.pow_add_r by lia. lia. }
      rewrite Z.pow_succ_r in Hlb2 by lia.
      assert (0 < 2 ^ (d - 1)) by (apply Z.pow_pos_nonneg; lia). nia.
  - apply Z.leb_gt in Hd. destruct (b <=? a * 2 ^ (- d)); split; lia.
Qed.

(** With a numerator below [2 ^ 53] the quotient is finite and its scale
    is not positive. *)
Lemma true_div_pos_small (a b : Z) :
  0 < a < 2 ^ 53 -> 0 < b ->
  exists p, 0 <= p
    /\ true_div_pos a b = Some (round_half_even (a * 2 ^ p) b, - p)
    /\ (-1074 <= quotient_exponent a b - 52 -> - p = quotient_exponent a b - 52).
Proof.
  intros Ha Hb.
  destruct (quotient_exponent_spec a b ltac:(lia) Hb) as [He _].
  assert (Hla : Z.log2 a < 53) by (apply Z.log2_lt_pow2; lia).
  pose proof (Z.log2_nonneg b) as Hlb.
  unfold true_div_pos.
  set (s := Z.max (quotient_exponent a b - 52) (-1074)).
  assert (Hs : s <= 0) by lia.
  exists (- s). split; [lia |].
  replace (Z.max (- s) 0) with (- s) by lia.
  replace (Z.max s 0) with 0 by lia.
  rewrite Z.pow_0_r, !Z.mul_1_r, Z.opp_involutive.
  assert (Hp : 0 < 2 ^ (- s)) by (apply Z.pow_pos_nonneg; lia).
  pose proof (round_half_even_le_num (a * 2 ^ (- s)) b ltac:(nia) Hb) as Hm.
  assert (H1024 : 2 ^ 53 < 2 ^ 1024) by (apply Z.pow_lt_mono_r; lia).
  destruct (_ <? _) eqn:Hfin; [| apply Z.ltb_ge in Hfin; nia].
  split; [reflexivity |]. subst s. lia.
Qed.

(** For operands below [2 ^ 53] the ceiling of the rounded quotient is the
    ceiling of the exact one. *)
Lemma true_div_ceil_exact (a b : Z) :
  0 < a < 2 ^ 53 -> 0 < b < 2 ^ 53 ->
  exists x, true_div a b = Ok x /\ math_ceil x = ceil_div a b.
Proof.
  intros Ha Hb.
  destruct (true_div_pos_small a b Ha ltac:(lia)) as (p & Hp & Hdiv & Hs).
  destruct (quotient_exponent_spec a b ltac:(lia) ltac:(lia)) as [He Hge].
  assert (Hla : Z.log2 a < 53) by (apply Z.log2_lt_pow2; lia).
  assert (Hlb : Z.log2 b < 53) by (apply Z.log2_lt_pow2; lia).
  pose proof (Z.log2_nonneg a) as Hna. pose proof (Z.log2_nonneg b) as Hnb.
  specialize (Hs ltac:(lia)).
  set (e := quotient_exponent a b) in *.
  unfold true_div.
  destruct (b =? 0) eqn:Hb0; [apply Z.eqb_eq in Hb0; lia |].
  destruct (a =? 0) eqn:Ha0; [apply Z.eqb_eq in Ha0; lia |].
  rewrite !Z.abs_eq by lia. rewrite Hdiv.
  rewrite !Z.sgn_pos by lia. rewrite !Z.mul_1_l.
  eexists. split; [reflexivity |].
  unfold math_ceil. cbn [fst snd].
  replace (Z.max (- p) 0) with 0 by lia.
  replace (Z.max (- - p) 0) with p by lia.
  rewrite Z.pow_0_r, Z.mul_1_r.
  assert (H2p : 0 < 2 ^ p) by (apply Z.pow_pos_nonneg; lia).
  pose proof (ceil_div_bounds a b ltac:(lia)) as Hk.
  set (k := ceil_div a b) in *.
  assert (Hbp : b < 2 * 2 ^ p).
  { rewrite <- Z.pow_succ_r by lia.
    destruct (Z.le_gt_cases e 0) as [Hneg | Hpos].
    - assert (2 ^ 53 <= 2 ^ Z.succ p) by (apply Z.pow_le_mono_r; lia). lia.
    - specialize (Hge ltac:(lia)).
      assert (Hsplit : 2 ^ 53 = 2 ^ Z.succ p * 2 ^ e).
      { rewrite <- Z.pow_add_r by lia. f_equal. lia. }
      assert (0 < 2 ^ e) by (apply Z.pow_pos_nonneg; lia).
      assert (0 < 2 ^ Z.succ p) by (apply Z.pow_pos_nonneg; lia). nia. }
  apply ceil_div_unique; [assumption |]. split.
  - pose proof (round_half_even_gt (a * 2 ^ p) b ((k - 1) * 2 ^ p) ltac:(lia)
                  ltac:(nia)). lia.
  - apply round_half_even_le; [lia | nia].
Qed.

(** A negative numerator over a positive denominator: the quotient, when
    it is finite, has a ceiling that is not positive; and it is finite for
    a numerator above [- 2 ^ 53]. *)
Lemma true_div_ceil_negative (a b : Z) :
  a < 0 -> 0 < b ->
  (true_div a b = Err ResultTooLarge
   \/ exists x, true_div a b = Ok x /\ math_ceil x <= 0)
  /\ (- 2 ^ 53 < a -> exists x, true_div a b = Ok x /\ math_ceil x <= 0).
Proof.
  intros Ha Hb.
  assert (Hceil : forall m s, 0 <= m ->
            math_ceil (Z.sgn a * Z.sgn b * m, s) <= 0).
  { intros m s Hm. unfold math_ceil, ceil_div. cbn [fst snd].
    rewrite Z.sgn_neg, Z.sgn_pos by lia.
    assert (0 < 2 ^ Z.max (- s) 0) by (apply Z.pow_pos_nonneg; lia).
    assert (0 <= 2 ^ Z.max s 0) by (apply Z.pow_nonneg; lia).
    assert (0 <= (- (-1 * 1 * m * 2 ^ Z.max s 0)) / 2 ^ Z.max (- s) 0)
      by (apply Z.div_pos; nia).
    lia. }
  assert (Hm : forall m s,
            true_div_pos (Z.abs a) (Z.abs b) = Some (m, s) -> 0 <= m).
  { unfold true_div_pos. intros m s. destruct (_ <? _); [| discriminate].
    intros [= <- _]. apply round_half_even_nonneg.
    - assert (0 <= 2 ^ Z.max (- Z.max (quotient_exponent (Z.abs a) (Z.abs b) - 52)
                                       (-1074)) 0)
        by (apply Z.pow_nonneg; lia). nia.
    - assert (0 < 2 ^ Z.max (Z.max (quotient_exponent (Z.abs a) (Z.abs b) - 52)
                                    (-1074)) 0)
        by (apply Z.pow_pos_nonneg; lia). nia. }
  unfold true_div.
  destruct (b =? 0) eqn:Hb0; [apply Z.eqb_eq in Hb0; lia |].
  destruct (a =? 0) eqn:Ha0; [apply Z.eqb_eq in Ha0; lia |].
  split.
  - destruct (true_div_pos (Z.abs a) (Z.abs b)) as [[m s] |] eqn:Hdiv; [| now left].
    right. eexists. split; [reflexivity |]. apply Hceil. eauto.
  - intros Hlow.
    destruct (true_div_pos_small (Z.abs a) (Z.abs b) ltac:(lia) ltac:(lia))
      as (p & Hp & Hdiv & _).
    rewrite Hdiv. eexists. split; [reflexivity |]. apply Hceil. eauto.
Qed.

Lemma true_div_by_zero (a : Z) : true_div a 0 = Err DivisionByZero.
Proof. reflexivity. Qed.


Lemma range_empty (lo hi : Z) : hi <= lo -> range lo hi = [].
Proof. intros Hle. unfold range. now replace (Z.to_nat (hi - lo)) with 0%nat by lia. Qed.

(** Some quotients, as Python prints them: [45 / 20] is [2.25], [1 / 3]
    is [0.333...] with the significand [6004799503160661], the quotient of
    [2 ^ 53 + 1] by [2 ^ 53] is [1.0], [1 / 10 ^ 400] is [0.0], and
    [10 ^ 400 / 1] is too large. *)
Example true_div_examples :
  true_div 45 20 = Ok (5066549580791808, -51)
  /\ true_div 1 3 = Ok (6004799503160661, -54)
  /\ true_div (2 ^ 53 + 1) (2 ^ 53) = Ok (2 ^ 52, -52)
  /\ true_div 1 (10 ^ 400) = Ok (0, -1074)
  /\ true_div (10 ^ 400) 1 = Err ResultTooLarge
  /\ true_div (-7) 2 = Ok (- 7881299347898368, -51)
  /\ true_div 7 0 = Err DivisionByZero.
Proof. repeat split; vm_compute; reflexivity. Qed.

Example math_ceil_examples :
  (math_ceil <$> [(5066549580791808, -51); (2 ^ 52, -52); (0, -1074);
                  (- 7881299347898368, -51)])
  = [3; 1; 0; -3].
Proof. reflexivity. Qed.

End DivisionFacts.

(** ** The paginated book iterator *)

Section IteratorClaims.
Context {Elem : Type} `{!Lxml Elem}.

(** C3. When the total parsed while the iterator was built is 0,
    iterating it to the end yields no book and leaves the state as it was:
    the only request is the one made when the iterator was built, for the
    base URL. *)
Theorem no_books_no_requests (env : Env) (url : option string) (st st1 : State)
    (it : BookIterator) :
  run env (iter_books url) st = (Ok it, st1) ->
  count it = 0 ->
  run env (BookIterator_iter it ≫= tuple) st1 = (Ok [], st1)
  /\ trace st1 = trace st ++ [HttpGet (get_abs_url url) false].
Proof.
  intros Hinit Hcount. split.
  - unfold BookIterator_iter, new_generator, BookIterator_iter_body.
    rewrite run_mbind, Hcount. reflexivity.
  - pose proof (run_BookIterator_init_state env url st) as Hst.
    unfold iter_books in Hinit. rewrite Hinit in Hst. simpl in Hst. now subst st1.
Qed.



Lemma range_lookup (lo hi : Z) (k : nat) :
  (k < Z.to_nat (hi - lo))%nat -> range lo hi !! k = Some (lo + Z.of_nat k).
Proof.
  intros Hk. unfold range. rewrite list_lookup_fmap, lookup_seq_lt by exact Hk.
  reflexivity.
Qed.

Lemma length_range (lo hi : Z) : length (range lo hi) = Z.to_nat (hi - lo).
Proof. unfold range. now rewrite length_fmap, length_seq. Qed.

(** Below [2 ^ 53] the page count is the exact ceiling plus one. *)
Lemma count_pages_exact (self : BookIterator) :
  0 < count self < 2 ^ 53 -> 0 < show_count self < 2 ^ 53 ->
  count_pages self = Ok (ceil_div (count self) (show_count self) + 1).
Proof.
  intros Hc Hs. unfold count_pages.
  destruct (true_div_ceil_exact _ _ Hc Hs) as (x & -> & ->). reflexivity.
Qed.


(** The iteration when the quotient cannot be taken: the exception, and no
    request. *)
Lemma run_iter_error (env : Env) (self : BookIterator) (e : arith_error) (st : State) :
  count self <> 0 ->
  count_pages self = Err e ->
  run env (BookIterator_iter self ≫= tuple) st = (Err (arith_exn e), st).
Proof.
  intros Hc Hp.
  unfold BookIterator_iter, new_generator, BookIterator_iter_body.
  rewrite run_mbind. cbn [run].
  destruct (count self =? 0) eqn:Hzero; [apply Z.eqb_eq in Hzero; lia |].
  rewrite Hp. reflexivity.
Qed.


End IteratorClaims.

(** ** What a program can call and raise *)

Section AllFacts.
Context {Elem : Type}.
Variables (P : Eff -> Prop) (Q : exn Elem -> Prop).

Local Abbreviation Prog := (Prog Elem).
Local Abbreviation Gen := (Gen Elem).

Lemma prog_all_bind {A B : Type} (p : Prog A) (f : A -> Prog B) :
  prog_all P Q p -> (forall a, prog_all P Q (f a)) -> prog_all P Q (p ≫= f).
Proof.
  intros Hp Hf. change (prog_all P Q (bind p f)).
  induction Hp as [a | e He | e k He _ IH]; simpl.
  - apply Hf.
  - now constructor.
  - constructor; [exact He | exact IH].
Qed.

Lemma prog_all_or_raise {A : Type} (e : exn Elem) (x : option A) :
  Q e -> prog_all P Q (or_raise e x).
Proof. intros He. destruct x; now constructor. Qed.

Lemma prog_all_for_each {X : Type} (xs : list X) (body : X -> Prog unit) :
  (forall x, prog_all P Q (body x)) -> prog_all P Q (for_each xs body).
Proof.
  intros Hbody. induction xs as [| x rest IH]; simpl; [constructor |].
  apply (prog_all_bind (body x)); auto.
Qed.

Lemma gen_all_bind {A Y : Type} (p : Prog A) (f : A -> Gen Y) :
  prog_all P Q p -> (forall a, gen_all P Q (f a)) -> gen_all P Q (gen_bind p f).
Proof.
  intros Hp Hf. induction Hp as [a | e He | e k He _ IH]; simpl.
  - apply Hf.
  - now constructor.
  - constructor; [exact He | exact IH].
Qed.

Lemma gen_all_seq {Y : Type} (g h : Gen Y) :
  gen_all P Q g -> gen_all P Q h -> gen_all P Q (gen_seq g h).
Proof.
  intros Hg Hh. induction Hg as [| e He | y rest _ IH | e k He _ IH]; simpl;
    try (constructor; assumption). exact Hh.
Qed.

Lemma gen_all_for {X Y : Type} (xs : list X) (body : X -> Gen Y) :
  (forall x, gen_all P Q (body x)) -> gen_all P Q (gen_for xs body).
Proof.
  intros Hbody. induction xs as [| x rest IH]; simpl; [constructor |].
  apply gen_all_seq; auto.
Qed.

Lemma prog_all_tuple {Y : Type} (g : Gen Y) :
  gen_all P Q g -> prog_all P Q (tuple g).
Proof.
  induction 1 as [| e He | y rest _ IH | e k He _ IH]; simpl;
    try (constructor; assumption).
  apply (prog_all_bind (tuple rest)); [exact IH | intros ys; constructor].
Qed.

Lemma prog_all_next {Y : Type} (g : Gen Y) :
  gen_all P Q g -> prog_all P Q (next g).
Proof.
  induction 1 as [| e He | y rest _ IH | e k He _ IH]; simpl;
    constructor; assumption.
Qed.

Lemma prog_all_for_gen {Y : Type} (g : Gen Y) (body : Y -> Prog unit) :
  gen_all P Q g -> (forall y, prog_all P Q (body y)) -> prog_all P Q (for_gen g body).
Proof.
  intros Hg Hbody. induction Hg as [| e He | y rest _ IH | e k He _ IH]; simpl;
    try (constructor; assumption).
  apply (prog_all_bind (body y)); auto.
Qed.

(** The outside world only fails with its own exceptions. *)
Lemma handle_error (env : Env) (e : Eff) (st st' : State) (x : exn Elem) :
  handle env e st = (Err x, st') -> world_error x.
Proof.
  unfold world_error. destruct e; simpl;
    repeat match goal with
           | |- context [match ?o with Some _ => _ | None => _ end] => destruct o
           | |- context [if ?b then _ else _] => destruct b
           end;
    intros Heq; inversion Heq; auto.
Qed.

(** A run makes only calls that satisfy [P], and ends, if with an
    exception, with one that satisfies [Q] or one of the outside world. *)
Lemma run_prog_all {A : Type} (env : Env) (p : Prog A) :
  prog_all P Q p ->
  forall (st st' : State) (r : result (exn Elem) A),
  run env p st = (r, st') ->
  (exists calls, trace st' = trace st ++ calls /\ Forall P calls)
  /\ (forall x, r = Err x -> Q x \/ world_error x).
Proof.
  induction 1 as [a | e He | e k He _ IH]; intros st st' r Hrun; simpl in Hrun.
  - injection Hrun as <- <-. split; [exists []; now rewrite app_nil_r | discriminate].
  - injection Hrun as <- <-. split; [exists []; now rewrite app_nil_r |].
    intros x [= <-]. now left.
  - pose proof (handle_trace (Elem := Elem) env e st) as Htrace.
    destruct (handle env e st) as [[a | x] st1] eqn:Hhandle; simpl in Htrace.
    + apply IH in Hrun as [(calls & Hcalls & Hall) Herr]. split; [| exact Herr].
      exists (e :: calls). split; [| now constructor].
      rewrite Hcalls, Htrace, <- app_assoc. reflexivity.
    + injection Hrun as <- <-. split.
      * exists [e]. split; [exact Htrace | repeat constructor; exact He].
      * intros y [= <-]. right. eapply handle_error, Hhandle.
Qed.

End AllFacts.

Ltac all_steps_with known :=
  repeat first
    [ known
    | match goal with
      | |- prog_all _ _ (let _ := _ in _) => cbv zeta
      | |- prog_all _ _ (_ ≫= _) => apply prog_all_bind; [| intros ?]
      | |- prog_all _ _ (bind _ _) => apply prog_all_bind; [| intros ?]
      | |- prog_all _ _ (or_raise _ _) => apply prog_all_or_raise
      | |- prog_all _ _ (attr _) => apply prog_all_or_raise
      | |- prog_all _ _ (call _) =>
          unfold call; apply all_Vis; [| intros ?; apply all_Ret]
      | |- prog_all _ _ (Ret _) => apply all_Ret
      | |- prog_all _ _ (Raise _) => apply all_Raise
      | |- prog_all _ _ (if ?b then _ else _) => destruct b
      | |- prog_all _ _ (match ?x with _ => _ end) => destruct x
      end ].

Ltac all_steps := all_steps_with fail.

Section ParserAll.
Context {Elem : Type} `{!Lxml Elem}.
Variables (P : Eff -> Prop) (Q : exn Elem -> Prop).
Hypothesis HP : forall url stream, P (HttpGet url stream).
Hypothesis HQ : forall e, e <> IndexError -> Q e.

(** The parser only makes HTTP requests, and none of the exceptions it
    raises itself is an [IndexError]. *)
Lemma prog_all_findall (selector : string) (url : option string) (tree : option Elem) :
  prog_all P Q (findall selector url tree).
Proof.
  unfold findall, send, requests_get, make_tree. all_steps; auto; now apply HQ.
Qed.

Lemma prog_all_findone (selector : string) (url : option string) (tree : option Elem) :
  prog_all P Q (findone selector url tree).
Proof.
  unfold findone. apply prog_all_bind; [apply prog_all_findall | intros found].
  all_steps. now apply HQ.
Qed.

Lemma prog_all_index_of_anchors (anchors : list Elem)
    (acc : gmap string (option string)) :
  prog_all P Q (index_of_anchors anchors acc).
Proof.
  revert acc. induction anchors as [| a rest IH]; intros acc; simpl; [constructor |].
  apply prog_all_bind; [apply prog_all_or_raise; now apply HQ | intros t; apply IH].
Qed.

Lemma prog_all_get_index : prog_all P Q get_index.
Proof.
  unfold get_index.
  apply prog_all_bind; [apply prog_all_findall | intros; apply prog_all_index_of_anchors].
Qed.

Lemma gen_all_search_body (c : ascii) (rest : string) :
  gen_all P Q (search_body (String c rest)).
Proof.
  unfold search_body. apply gen_all_bind; [apply prog_all_get_index | intros index].
  cbv zeta. destruct (PyStr.truthy _); [| constructor].
  apply gen_all_bind; [apply prog_all_findall | intros anchors].
  apply gen_all_for. intros a. repeat constructor.
Qed.

Lemma prog_all_get_book (url : option string) : prog_all P Q (get_book url).
Proof.
  unfold get_book.
  repeat first
    [ apply prog_all_findone | apply prog_all_findall
    | apply prog_all_or_raise; now apply HQ
    | apply all_Ret
    | cbv zeta; apply prog_all_bind; [| intros ?] ].
Qed.

Lemma prog_all_py_int (x : option string) : prog_all P Q (py_int x).
Proof.
  destruct x; simpl; [apply prog_all_or_raise | constructor]; now apply HQ.
Qed.

Lemma prog_all_BookIterator_init (url : option string) :
  prog_all P Q (BookIterator_init url).
Proof.
  unfold BookIterator_init.
  repeat first
    [ apply prog_all_findone | apply prog_all_py_int
    | apply prog_all_or_raise; now apply HQ
    | apply all_Ret
    | apply prog_all_bind; [| intros ?] ].
Qed.

Lemma gen_all_BookIterator_iter_body (self : BookIterator) :
  gen_all P Q (BookIterator_iter_body self).
Proof.
  unfold BookIterator_iter_body.
  destruct (count self =? 0); [constructor |].
  destruct (count_pages self) as [pages | []];
    [| constructor; now apply HQ | constructor; now apply HQ].
  apply gen_all_for. intros i.
  apply gen_all_bind; [apply prog_all_findall | intros anchors].
  apply gen_all_for. intros a.
  apply gen_all_bind; [apply prog_all_get_book | intros book]. repeat constructor.
Qed.

End ParserAll.

Section SearchLaziness.
Context {Elem : Type} `{!Lxml Elem}.

(** C9. Calling [search] with the empty query raises nothing and makes
    no call: it returns a generator object; the first [next] on it, hence
    also iterating it to the end, raises [IndexError], before any request.
    For a query that is not empty the call returns a generator object too,
    and neither the first [next] nor iterating to the end can end with an
    [IndexError]. *)
Theorem search_first_character (env : Env) (st : State) :
  (exists g,
     run env (search EmptyString) st = (Ok g, st)
     /\ run env (next g) st = (Err IndexError, st)
     /\ run env (tuple g) st = (Err IndexError, st))
  /\ (forall (c : ascii) (rest : string),
        (exists g, run env (search (String c rest)) st = (Ok g, st))
        /\ (run env (search (String c rest) ≫= next) st).1 <> Err IndexError
        /\ (run env (search (String c rest) ≫= tuple) st).1 <> Err IndexError).
Proof.
  split.
  - exists (search_body EmptyString). repeat split.
  - intros c rest.
    assert (Hbody : gen_all (fun _ => True) (fun e => e <> IndexError)
                      (search_body (String c rest)))
      by (apply gen_all_search_body; auto).
    split; [eexists; reflexivity |]. unfold search, new_generator.
    split; rewrite run_mbind; cbn [run].
    + destruct (run env (next _) st) as [r st'] eqn:Hrun.
      apply (run_prog_all _ _ env _ (prog_all_next _ _ _ Hbody)) in Hrun as [_ Herr].
      intros Hr. destruct (Herr _ Hr) as [Hne | [Hw | [Hw | Hw]]];
        [now apply Hne | discriminate ..].
    + destruct (run env (tuple _) st) as [r st'] eqn:Hrun.
      apply (run_prog_all _ _ env _ (prog_all_tuple _ _ _ Hbody)) in Hrun as [_ Herr].
      intros Hr. destruct (Herr _ Hr) as [Hne | [Hw | [Hw | Hw]]];
        [now apply Hne | discriminate ..].
Qed.

End SearchLaziness.

(** ** Download *)

Section DownloadClaims.
Context {Elem : Type}.

Lemma concat_chunks_fuel (n : nat) :
  (0 < n)%nat ->
  forall (fuel : nat) (body : list byte),
  (length body <= fuel)%nat ->
  concat (chunks_fuel fuel n body) = body
  /\ Forall (fun chunk => (0 < length chunk <= n)%nat) (chunks_fuel fuel n body).
Proof.
  intros Hn. induction fuel as [| fuel IH]; intros body Hlen.
  - destruct body; [split; [reflexivity | constructor] | simpl in Hlen; lia].
  - destruct body as [| b body']; [split; [reflexivity | constructor] |].
    cbn [chunks_fuel]. set (body := b :: body') in *.
    destruct (IH (drop n body)) as [Hcat Hall].
    { rewrite length_drop. subst body. simpl in *. lia. }
    split.
    + cbn [concat]. rewrite Hcat. apply take_drop.
    + constructor; [| exact Hall]. rewrite length_take. subst body. simpl. lia.
Qed.

Lemma iter_content_pos (resp : Response) (chunk_size : nat) :
  (0 < chunk_size)%nat ->
  iter_content resp chunk_size
  = chunks_fuel (length (content resp)) chunk_size (content resp).
Proof. destruct chunk_size; [lia | reflexivity]. Qed.

(** The loop of [download]: each chunk is appended to the file. *)
Lemma run_writes (env : Env) (path : string) (chunks : list (list byte)) :
  (forall f chunk, os_denies env f (FWrite path chunk) = false) ->
  forall (st : State) (written : list byte),
  files (fs st) !! path = Some written ->
  exists st',
    run (Elem := Elem) env (for_each chunks (fun chunk => f_write path chunk)) st
    = (Ok tt, st')
    /\ files (fs st') !! path = Some (written ++ concat chunks)
    /\ trace st' = trace st ++ (FWrite path <$> chunks).
Proof.
  intros Hos. induction chunks as [| chunk rest IH]; intros st written Hfile.
  - exists st. simpl. rewrite !app_nil_r. auto.
  - cbn [for_each]. rewrite run_bind. unfold f_write, call. cbn [run handle].
    rewrite Hos.
    destruct (IH (log (FWrite path chunk)
                    {| files := alter (fun old => old ++ chunk) path (files (fs st));
                       dirs := dirs (fs st) |} st) (written ++ chunk))
      as (st' & Hrun & Hfile' & Htrace).
    { cbn [fs log files]. rewrite lookup_alter_eq, Hfile. reflexivity. }
    exists st'. split; [exact Hrun |]. split.
    + rewrite Hfile'. cbn [concat]. now rewrite app_assoc.
    + rewrite Htrace. cbn [trace log]. rewrite <- app_assoc. reflexivity.
Qed.

(** C10. Whatever the status code of the response, when the transport
    succeeds and the operating system lets the file be opened and written,
    [download] returns the path, and the file at the path then holds the
    body of the response: it was opened for writing and the body was
    written to it in pieces of at most [chunk_size] bytes.  So the body of
    an error response (a 404 page) ends up in the file. *)
Theorem download_writes_any_response (env : Env) (st : State) (url path : string)
    (chunk_size : nat) (resp : Response) :
  (0 < chunk_size)%nat ->
  http env (trace st) url true = Some resp ->
  path ∉ dirs (fs st) ->
  os_denies env (fs st) (OpenWb path) = false ->
  (forall f chunk, os_denies env f (FWrite path chunk) = false) ->
  exists st',
    run (Elem := Elem) env (download url path chunk_size) st = (Ok path, st')
    /\ files (fs st') !! path = Some (content resp)
    /\ trace st'
       = trace st ++ [HttpGet url true; OpenWb path]
         ++ (FWrite path <$> iter_content resp chunk_size)
    /\ concat (iter_content resp chunk_size) = content resp
    /\ Forall (fun chunk => (0 < length chunk <= chunk_size)%nat)
         (iter_content resp chunk_size).
Proof.
  intros Hsize Hhttp Hdir Hopen Hwrite.
  destruct (concat_chunks_fuel chunk_size Hsize (length (content resp)) (content resp))
    as [Hcat Hall]; [lia |].
  unfold download, requests_get, open_wb, call.
  rewrite run_mbind. cbn [run handle]. rewrite Hhttp.
  rewrite run_mbind. cbn [run handle fs log]. rewrite Hopen.
  rewrite bool_decide_eq_false_2 by exact Hdir. cbn [orb].
  rewrite run_mbind. rewrite !(iter_content_pos resp chunk_size Hsize).
  edestruct (run_writes env path
               (chunks_fuel (length (content resp)) chunk_size (content resp)) Hwrite)
    as (st' & Hrun & Hfile & Htrace); [| rewrite Hrun].
  { cbn [fs log files]. apply lookup_insert_eq. }
  exists st'. cbn [run]. repeat split; trivial.
  - rewrite Hfile. now rewrite Hcat.
  - rewrite Htrace. cbn [trace log]. rewrite <- !app_assoc. reflexivity.
Qed.

End DownloadClaims.

(** ** The command line program *)

Section MainClaims.
Context {Elem : Type} `{!Lxml Elem} `{!PyLib}.

Local Abbreviation quiet := (fun e : Eff => is_menu e = false).
Local Abbreviation any_exn := (fun _ : exn Elem => True).

Lemma prog_all_download (url path : string) (chunk_size : nat) :
  prog_all quiet any_exn (download (Elem := Elem) url path chunk_size).
Proof.
  unfold download, requests_get, open_wb.
  apply prog_all_bind; [all_steps; reflexivity | intros resp].
  apply prog_all_bind; [all_steps; reflexivity | intros _].
  apply prog_all_bind; [| intros _; constructor].
  apply prog_all_for_each. intros chunk. unfold f_write. all_steps. reflexivity.
Qed.

Lemma prog_all_main_loop_body (dest filename_template file_format : string)
    (book : gmap string (option string)) :
  prog_all quiet any_exn (main_loop_body dest filename_template file_format book).
Proof.
  unfold main_loop_body, dict_item, str_arg, ensure_dir, os_path_exists, os_mkdir, sleep.
  all_steps_with ltac:(apply prog_all_download); solve [reflexivity | exact I].
Qed.

(** After the target URL is known the program prints no menu line and asks
    nothing. *)
Lemma prog_all_main_books (url : option string)
    (dest filename_template file_format : string) :
  prog_all quiet any_exn (main_books url dest filename_template file_format).
Proof.
  unfold main_books, iter_books.
  apply prog_all_bind; [apply prog_all_BookIterator_init; auto | intros books].
  apply (prog_all_for_gen _ _ (BookIterator_iter_body books)).
  - apply gen_all_BookIterator_iter_body; auto.
  - apply prog_all_main_loop_body.
Qed.

Lemma prog_all_search_tuple (query : string) :
  prog_all quiet any_exn (search query ≫= tuple).
Proof.
  apply (prog_all_tuple _ _ (search_body query)).
  destruct query as [| c rest]; [now constructor | apply gen_all_search_body; auto].
Qed.

(** C8. When the search yields exactly one match, [main] goes on with
    the URL of that match, and in the whole run no menu line is printed and
    nothing is asked.  When the search yields no match, [main] ends with an
    [IndexError] right after the search: nothing catches it. *)
Theorem main_one_or_no_match (env : Env) (st st1 : State)
    (query dest filename_template file_format : string) :
  (forall url title,
     run env (search query ≫= tuple) st = (Ok [(url, title)], st1) ->
     run env (main query dest filename_template file_format) st
     = run env (main_books url dest filename_template file_format) st1
     /\ exists calls,
          trace (run env (main query dest filename_template file_format) st).2
          = trace st ++ calls
          /\ Forall (fun e => is_menu e = false) calls)
  /\ (run env (search query ≫= tuple) st = (Ok [], st1) ->
      run env (main query dest filename_template file_format) st
      = (Err IndexError, st1)).
Proof.
  assert (Hmain : forall found,
    run env (search query ≫= tuple) st = (Ok found, st1) ->
    run env (main query dest filename_template file_format) st
    = run env
        ((if (1 <? length found)%nat then make_select_menu found
          else match found with
               | [] => Raise IndexError
               | first :: _ => Ret first.1
               end) ≫= fun url => main_books url dest filename_template file_format)
        st1).
  { intros found Hsearch. unfold main, search, new_generator in *.
    rewrite run_mbind in Hsearch. cbn [run] in Hsearch.
    rewrite run_mbind. cbn [run]. rewrite run_mbind, Hsearch. reflexivity. }
  split.
  - intros url title Hsearch.
    assert (Heq : run env (main query dest filename_template file_format) st
                  = run env (main_books url dest filename_template file_format) st1).
    { rewrite (Hmain _ Hsearch). cbn [length Nat.ltb Nat.leb]. rewrite run_mbind.
      reflexivity. }
    split; [exact Heq |]. rewrite Heq.
    destruct (run_prog_all _ _ env _ (prog_all_search_tuple query) _ _ _ Hsearch)
      as [(calls1 & Htrace1 & Hall1) _].
    destruct (run env (main_books url dest filename_template file_format) st1)
      as [r st2] eqn:Hrun.
    destruct (run_prog_all _ _ env _
                (prog_all_main_books url dest filename_template file_format)
                _ _ _ Hrun) as [(calls2 & Htrace2 & Hall2) _].
    exists (calls1 ++ calls2). cbn [snd]. split.
    + rewrite Htrace2, Htrace1, app_assoc. reflexivity.
    + apply Forall_app. auto.
  - intros Hsearch. rewrite (Hmain _ Hsearch). reflexivity.
Qed.

End MainClaims.

(** ** The properties on the small site *)

Section OnTheSite.

#[local] Existing Instance Toy.site_lxml.
#[local] Existing Instance Toy.pylib.

Lemma findone_zero_one_many_witness :
  run Toy.env (findall ".eText" None (Some Toy.book_page)) Toy.start
  = (Ok [Toy.book_container], Toy.start)
  /\ run Toy.env (findone ".eText" None (Some Toy.book_page)) Toy.start
     = (Ok (Some Toy.book_container), Toy.start).
Proof.
  assert (Hall : run Toy.env (findall ".eText" None (Some Toy.book_page)) Toy.start
                 = (Ok [Toy.book_container], Toy.start)) by reflexivity.
  split; [exact Hall |].
  exact (proj1 (proj2 (findone_zero_one_many Toy.env ".eText" None (Some Toy.book_page)
                         Toy.start Toy.start [Toy.book_container] Hall))
           Toy.book_container eq_refl).
Defined.

Lemma no_books_no_requests_witness :
  run Toy.env (iter_books (Some "/empty")) Toy.start
  = (Ok Toy.no_books, Toy.fetched "https://fb2-epub.ru/empty")
  /\ run Toy.env (BookIterator_iter Toy.no_books ≫= tuple)
       (Toy.fetched "https://fb2-epub.ru/empty")
     = (Ok [], Toy.fetched "https://fb2-epub.ru/empty")
  /\ trace (Toy.fetched "https://fb2-epub.ru/empty")
     = [HttpGet "https://fb2-epub.ru/empty" false].
Proof.
  assert (Hinit : run Toy.env (iter_books (Some "/empty")) Toy.start
                  = (Ok Toy.no_books, Toy.fetched "https://fb2-epub.ru/empty"))
    by reflexivity.
  split; [exact Hinit |].
  exact (no_books_no_requests Toy.env (Some "/empty") Toy.start
           (Toy.fetched "https://fb2-epub.ru/empty") Toy.no_books Hinit eq_refl).
Defined.

Lemma get_index_keys_witness :
  exists index,
    run Toy.env get_index Toy.start = (Ok index, Toy.fetched "https://fb2-epub.ru/")
    /\ dom index = {["p"]}
    /\ index !! "p" = Some (Some "/p").
Proof.
  assert (Hfind : run Toy.env (findall "#s1 a" (Some "/") None) Toy.start
                  = (Ok [Toy.anchor "P" "/p"], Toy.fetched "https://fb2-epub.ru/"))
    by reflexivity.
  assert (Htexts : Forall (fun a => is_Some (el_text a)) [Toy.anchor "P" "/p"])
    by (repeat constructor; eexists; reflexivity).
  destruct (get_index_keys Toy.env Toy.start _ _ Hfind Htexts)
    as (index & Hrun & Hdom & Hkeys).
  exists index. split; [exact Hrun |]. split.
  - rewrite Hdom. vm_compute. reflexivity.
  - rewrite Hkeys. reflexivity.
Defined.

(** C4, as stated, fails on an index page whose only anchor has the text
    AB: the key is ab, the lowercased text, and not a, the lowercased
    first character. *)
Lemma get_index_key_is_whole_text :
  exists index,
    run Toy.long_index_env (findall "#s1 a" (Some "/") None) Toy.start
    = (Ok [Toy.anchor "AB" "/x"], Toy.fetched "https://fb2-epub.ru/")
    /\ run Toy.long_index_env get_index Toy.start
       = (Ok index, Toy.fetched "https://fb2-epub.ru/")
    /\ index !! "ab" = Some (Some "/x")
    /\ index !! "a" = None
    /\ spec_index_keys [Toy.anchor "AB" "/x"] = {["a"]}
    /\ dom index <> spec_index_keys [Toy.anchor "AB" "/x"].
Proof.
  exists (<["ab" := Some "/x"]> ∅).
  assert (Hspec : spec_index_keys [Toy.anchor "AB" "/x"] = {["a"]})
    by (vm_compute; reflexivity).
  repeat split; try reflexivity; try exact Hspec.
  rewrite Hspec. intros Heq.
  assert (Hin : "ab" ∈ dom (<["ab" := Some "/x"]> (∅ : gmap string (option string))))
    by (apply elem_of_dom; eexists; apply lookup_insert_eq).
  rewrite Heq in Hin. apply elem_of_singleton in Hin. discriminate.
Qed.

Lemma book_page_found :
  run Toy.env (findone ".eText" (Some "/book1") None) Toy.start
  = (Ok (Some Toy.book_container), Toy.fetched "https://fb2-epub.ru/book1").
Proof. reflexivity. Qed.

Lemma book_page_shape :
  book_shape Toy.book_container Toy.book_heading Toy.author_anchor " Some Title.. "
    Toy.book_paragraphs [] [Toy.epub_link].
Proof. unfold book_shape. repeat split; simpl; lia. Qed.

Lemma get_book_title_stripped_witness :
  exists book,
    run Toy.env (get_book (Some "/book1")) Toy.start
    = (Ok book, Toy.fetched "https://fb2-epub.ru/book1")
    /\ book !! "title" = Some (Some "Some Title").
Proof.
  destruct (get_book_title_stripped Toy.env (Some "/book1") Toy.start _ _ _ _ _ _ _ _
              book_page_found book_page_shape)
    as (book & title & Hrun & Htitle & _ & _ & _ & Hexample).
  exists book. split; [exact Hrun |]. rewrite Htitle, (Hexample eq_refl). reflexivity.
Defined.

Lemma get_book_description_witness :
  exists book,
    run Toy.env (get_book (Some "/book1")) Toy.start
    = (Ok book, Toy.fetched "https://fb2-epub.ru/book1")
    /\ book !! "description" = Some (Some (spec_description Toy.book_paragraphs)).
Proof.
  exact (get_book_description Toy.env (Some "/book1") Toy.start _ _ _ _ _ _ _ _
           book_page_found book_page_shape).
Defined.

(** C6, as stated, fails on a book page with the paragraph texts a, a
    single space, no text, b: the paragraph that holds a space has a text
    that is not empty, and it contributes an empty entry, so that the
    description has an empty line between a and b. *)
Lemma description_has_empty_entry :
  exists book,
    run Toy.env (get_book (Some "/book1")) Toy.start
    = (Ok book, Toy.fetched "https://fb2-epub.ru/book1")
    /\ description_lines Toy.book_paragraphs = ["a"; EmptyString; "b"]
    /\ book !! "description"
       = Some (Some ("a" +:+ PyStr.newline +:+ PyStr.newline +:+ "b"))
    /\ PyStr.split "010" ("a" +:+ PyStr.newline +:+ PyStr.newline +:+ "b")
       = ["a"; EmptyString; "b"].
Proof.
  destruct (run_get_book Toy.env (Some "/book1") Toy.start _ _ _ _ _ _ _ _
              book_page_found book_page_shape)
    as (book & Hrun & _ & _ & _ & Hdescr & _).
  exists book. repeat split; trivial.
Qed.

Lemma search_unknown_letter_witness :
  run Toy.env get_index Toy.start
  = (Ok {["p" := Some "/p"]}, Toy.fetched "https://fb2-epub.ru/")
  /\ run Toy.env (search "Zed" ≫= tuple) Toy.start
     = (Ok [], Toy.fetched "https://fb2-epub.ru/")
  /\ trace (Toy.fetched "https://fb2-epub.ru/") = [HttpGet "https://fb2-epub.ru/" false].
Proof.
  assert (Hindex : run Toy.env get_index Toy.start
                   = (Ok {["p" := Some "/p"]}, Toy.fetched "https://fb2-epub.ru/"))
    by reflexivity.
  split; [exact Hindex |].
  destruct (search_unknown_letter Toy.env Toy.start _ "Z" "ed" _ Hindex eq_refl)
    as (Hrun & Htrace & _).
  split; [exact Hrun | exact Htrace].
Defined.

Lemma main_one_or_no_match_witness :
  (exists st1 result,
     run Toy.env (search "Pushkin" ≫= tuple) Toy.start
     = (Ok [(Some "/pushkin", Some "Pushkin A.")], st1)
     /\ run Toy.env (main "Pushkin" "/dest" "{author}. {title}" "epub") Toy.start
        = (Ok tt, result)
     /\ (exists calls, trace result = calls /\ Forall (fun e => is_menu e = false) calls)
     /\ files (fs result) !! "/dest/Pushkin A./Pushkin A.. Some Title.epub"
        = Some Toy.epub_bytes)
  /\ (exists st1,
        run Toy.env (search "Zed" ≫= tuple) Toy.start = (Ok [], st1)
        /\ run Toy.env (main "Zed" "/dest" "{author}. {title}" "epub") Toy.start
           = (Err IndexError, st1)).
Proof.
  split.
  - assert (Hsearch : exists st1,
      run Toy.env (search "Pushkin" ≫= tuple) Toy.start
      = (Ok [(Some "/pushkin", Some "Pushkin A.")], st1)) by (eexists; reflexivity).
    destruct Hsearch as (st1 & Hsearch).
    assert (Hmain : exists result,
      run Toy.env (main "Pushkin" "/dest" "{author}. {title}" "epub") Toy.start
      = (Ok tt, result)
      /\ files (fs result) !! "/dest/Pushkin A./Pushkin A.. Some Title.epub"
         = Some Toy.epub_bytes) by (eexists; split; vm_compute; reflexivity).
    destruct Hmain as (result & Hmain & Hfile).
    exists st1, result. split; [exact Hsearch |]. split; [exact Hmain |].
    split; [| exact Hfile].
    destruct (proj1 (main_one_or_no_match Toy.env Toy.start st1
                       "Pushkin" "/dest" "{author}. {title}" "epub")
                _ _ Hsearch) as (_ & calls & Htrace & Hquiet).
    rewrite Hmain in Htrace. exists calls. split; [exact Htrace | exact Hquiet].
  - assert (Hsearch : exists st1,
      run Toy.env (search "Zed" ≫= tuple) Toy.start = (Ok [], st1))
      by (eexists; reflexivity).
    destruct Hsearch as (st1 & Hsearch). exists st1. split; [exact Hsearch |].
    exact (proj2 (main_one_or_no_match Toy.env Toy.start st1
                    "Zed" "/dest" "{author}. {title}" "epub") Hsearch).
Defined.

Lemma download_writes_any_response_witness :
  status_code (mkResponse 404 Toy.not_found_bytes) = 404
  /\ exists st',
       run (Elem := Toy.TElem) Toy.env
         (download "https://fb2-epub.ru/missing.epub" "/dest/missing.epub" 2) Toy.start
       = (Ok "/dest/missing.epub", st')
       /\ files (fs st') !! "/dest/missing.epub" = Some Toy.not_found_bytes
       /\ trace st'
          = [HttpGet "https://fb2-epub.ru/missing.epub" true;
             OpenWb "/dest/missing.epub";
             FWrite "/dest/missing.epub" [x34; x30];
             FWrite "/dest/missing.epub" [x34]].
Proof.
  split; [reflexivity |].
  assert (Hsize : (0 < 2)%nat) by lia.
  assert (Hhttp : http Toy.env (trace Toy.start) "https://fb2-epub.ru/missing.epub" true
                  = Some (mkResponse 404 Toy.not_found_bytes)) by reflexivity.
  assert (Hdir : "/dest/missing.epub" ∉ dirs (fs Toy.start))
    by (change ("/dest/missing.epub" ∉ ({["/dest"]} : gset string));
        intros Hin; apply elem_of_singleton in Hin; discriminate).
  destruct (download_writes_any_response (Elem := Toy.TElem) Toy.env Toy.start
              "https://fb2-epub.ru/missing.epub" "/dest/missing.epub" 2
              (mkResponse 404 Toy.not_found_bytes) Hsize Hhttp Hdir eq_refl
              (fun _ _ => eq_refl))
    as (st' & Hrun & Hfile & Htrace & _).
  exists st'. repeat split; trivial.
Defined.

(** The whole program on the small site: one author matches the query,
    the book list announces one book, the book has an epub link.  The
    directory of the author is created and the file is written into it; no
    menu is shown. *)
Example main_end_to_end :
  exists result,
    run Toy.env (main "Pushkin" "/dest" "{author}. {title}" "epub") Toy.start
    = (Ok tt, result)
    /\ trace result
       = [HttpGet "https://fb2-epub.ru/" false;
          HttpGet "https://fb2-epub.ru/p" false;
          HttpGet "https://fb2-epub.ru/pushkin" false;
          HttpGet "https://fb2-epub.ru/pushkin-1" false;
          HttpGet "https://fb2-epub.ru/book1" false;
          PathExists "/dest/Pushkin A.";
          Mkdir "/dest/Pushkin A." 493;
          HttpGet "https://fb2-epub.ru/files/book1.epub" true;
          OpenWb "/dest/Pushkin A./Pushkin A.. Some Title.epub";
          FWrite "/dest/Pushkin A./Pushkin A.. Some Title.epub" Toy.epub_bytes;
          Sleep 100]
    /\ map_to_list (files (fs result))
       = [("/dest/Pushkin A./Pushkin A.. Some Title.epub", Toy.epub_bytes)]
    /\ "/dest/Pushkin A." ∈ dirs (fs result).
Proof.
  eexists. split; [vm_compute; reflexivity |]. split; [reflexivity |].
  split; [vm_compute; reflexivity |]. apply (bool_decide_unpack _). vm_compute.
  exact I.
Qed.

End OnTheSite.

(** ** On book lists of several pages *)

Section OnTheLongLists.

#[local] Existing Instance Toy.list_lxml.
#[local] Existing Instance Toy.pylib.



End OnTheLongLists.


(** * Further properties *)

(** ** The parser only reads the site *)

Section SiteOnly.
Context {Elem : Type} `{!Lxml Elem}.

Local Abbreviation any_exn := (fun _ : exn Elem => True).

Lemma run_site_only {A : Type} (p : Prog Elem A) :
  prog_all is_site_get any_exn p -> site_only p.
Proof.
  intros Hall env. induction Hall as [a | e _ | e k [url ->] _ IH]; intros st.
  - split; [reflexivity |]. exists []. now rewrite app_nil_r.
  - split; [reflexivity |]. exists []. now rewrite app_nil_r.
  - cbn [run handle].
    destruct (http env (trace st) ("https://fb2-epub.ru" +:+ url) false) as [resp |].
    + destruct (IH resp (log (HttpGet ("https://fb2-epub.ru" +:+ url) false) (fs st) st))
        as (Hfs & calls & Htrace & Hcalls).
      split; [exact Hfs |].
      exists (HttpGet ("https://fb2-epub.ru" +:+ url) false :: calls).
      split; [rewrite Htrace; cbn [trace log]; now rewrite <- app_assoc |].
      constructor; [now exists url | exact Hcalls].
    + split; [reflexivity |]. exists [HttpGet ("https://fb2-epub.ru" +:+ url) false].
      split; [reflexivity |]. repeat constructor. now exists url.
Qed.

Ltac site_steps :=
  all_steps; first [exact I | eexists; reflexivity].

Lemma site_findall (selector : string) (url : option string) (tree : option Elem) :
  prog_all is_site_get any_exn (findall selector url tree).
Proof. unfold findall, send, requests_get, make_tree. site_steps. Qed.

Lemma site_findone (selector : string) (url : option string) (tree : option Elem) :
  prog_all is_site_get any_exn (findone selector url tree).
Proof.
  unfold findone. apply prog_all_bind; [apply site_findall | intros found].
  all_steps. exact I.
Qed.

Lemma site_index_of_anchors (anchors : list Elem) (acc : gmap string (option string)) :
  prog_all is_site_get any_exn (index_of_anchors anchors acc).
Proof.
  revert acc. induction anchors as [| a rest IH]; intros acc; simpl; [constructor |].
  apply prog_all_bind; [now apply prog_all_or_raise | intros t; apply IH].
Qed.

Lemma site_get_index : prog_all is_site_get any_exn get_index.
Proof.
  unfold get_index.
  apply prog_all_bind; [apply site_findall | intros; apply site_index_of_anchors].
Qed.

Lemma site_get_book (url : option string) :
  prog_all is_site_get any_exn (get_book url).
Proof.
  unfold get_book.
  repeat first
    [ apply site_findone | apply site_findall
    | apply prog_all_or_raise; exact I
    | apply all_Ret
    | cbv zeta; apply prog_all_bind; [| intros ?] ].
Qed.

Lemma site_py_int (x : option string) : prog_all is_site_get any_exn (py_int x).
Proof.
  destruct x; simpl; [now apply prog_all_or_raise | now constructor].
Qed.

Lemma site_BookIterator_init (url : option string) :
  prog_all is_site_get any_exn (BookIterator_init url).
Proof.
  unfold BookIterator_init.
  repeat first
    [ apply site_findone | apply site_py_int
    | apply prog_all_or_raise; exact I
    | apply all_Ret
    | apply prog_all_bind; [| intros ?] ].
Qed.

Lemma site_search_body (query : string) :
  gen_all is_site_get any_exn (search_body query).
Proof.
  destruct query as [| c rest]; [now constructor |].
  unfold search_body. apply gen_all_bind; [apply site_get_index | intros index].
  cbv zeta. destruct (PyStr.truthy _); [| constructor].
  apply gen_all_bind; [apply site_findall | intros anchors].
  apply gen_all_for. intros a. repeat constructor.
Qed.

Lemma site_BookIterator_iter_body (self : BookIterator) :
  gen_all is_site_get any_exn (BookIterator_iter_body self).
Proof.
  unfold BookIterator_iter_body.
  destruct (count self =? 0); [constructor |].
  destruct (count_pages self) as [pages | e]; [| now constructor].
  apply gen_all_for. intros i.
  apply gen_all_bind; [apply site_findall | intros anchors].
  apply gen_all_for. intros a.
  apply gen_all_bind; [apply site_get_book | intros book]. repeat constructor.
Qed.

(** X1. Whatever the site answers, and whether they end normally or
    with an exception, [get_book], [get_index], a complete iteration of
    [search] and building and completely iterating a [BookIterator] never
    change the file system, and every call they make is a plain GET (not
    streamed) of a URL that begins with the origin of the site. *)
Theorem parser_only_reads_the_site :
  (forall url, site_only (get_book url))
  /\ site_only get_index
  /\ (forall query, site_only (search query ≫= tuple))
  /\ (forall url,
        site_only (iter_books url ≫= fun books => BookIterator_iter books ≫= tuple)).
Proof.
  split; [| split; [| split]]; intros; apply run_site_only.
  - apply site_get_book.
  - apply site_get_index.
  - apply (prog_all_tuple _ _ (search_body query)), site_search_body.
  - unfold iter_books. apply prog_all_bind; [apply site_BookIterator_init |].
    intros books. apply (prog_all_tuple _ _ (BookIterator_iter_body books)).
    apply site_BookIterator_iter_body.
Qed.

End SiteOnly.

(** ** More on the book detail extractor *)

Section BookExtras.
Context {Elem : Type} `{!Lxml Elem}.

(** X2. On a book page of the expected shape the book names its author
    and has the absolute URL of the author page; for each format it has the
    absolute URL of the link when the page has one, and no entry at all
    (so that [book.get] gives [None]) when the page has none. *)
Theorem get_book_links (env : Env) (url : option string) (st st' : State)
    (elem h1 author : Elem) (raw : string) (paragraphs fb2 epub : list Elem) :
  run env (findone ".eText" url None) st = (Ok (Some elem), st') ->
  book_shape elem h1 author raw paragraphs fb2 epub ->
  exists book,
    run env (get_book url) st = (Ok book, st')
    /\ book !! "author" = Some (el_text author)
    /\ dict_get "author_url" book
       = Some (BASE_URL +:+ PyStr.fstr (el_get author "href"))
    /\ dict_get "fb2_url" book
       = (fun a => BASE_URL +:+ PyStr.fstr (el_get a "href")) <$> head fb2
    /\ dict_get "epub_url" book
       = (fun a => BASE_URL +:+ PyStr.fstr (el_get a "href")) <$> head epub
    /\ (fb2 = [] -> book !! "fb2_url" = None)
    /\ (epub = [] -> book !! "epub_url" = None).
Proof.
  intros Hone Hshape.
  destruct (run_get_book env url st st' _ _ _ _ _ _ _ Hone Hshape)
    as (book & Hrun & Hauthor & Hurl & _ & _ & Hfb2 & Hepub).
  exists book. unfold dict_get. rewrite Hurl, Hfb2, Hepub.
  repeat split; trivial.
  - now destruct (head fb2).
  - now destruct (head epub).
  - now intros ->.
  - now intros ->.
Qed.

(** X3. When the book page has no element of class [eText], [get_book]
    raises [AttributeError]; when it has several, it raises
    [MultipleElementsFoundError] with all of them.  In both cases the page
    request is the only call made. *)
Theorem get_book_container (env : Env) (url : option string) (st st' : State)
    (found : list Elem) :
  run env (findall ".eText" url None) st = (Ok found, st') ->
  (found = [] -> run env (get_book url) st = (Err AttributeError, st'))
  /\ ((2 <= length found)%nat ->
      run env (get_book url) st = (Err (MultipleElementsFoundError found), st'))
  /\ trace st' = trace st ++ [HttpGet (get_abs_url url) false].
Proof.
  intros Hall. repeat split.
  - intros ->. unfold get_book. rewrite run_mbind, run_findone, Hall. reflexivity.
  - intros Hlen. unfold get_book. rewrite run_mbind, run_findone, Hall.
    destruct found as [| e1 [| e2 rest]]; simpl in Hlen; [lia | lia | reflexivity].
  - pose proof (run_findall_url env ".eText" url st) as Hst. rewrite Hall in Hst.
    simpl in Hst. now subst st'.
Qed.

(** X4. A book container without heading, a heading without anchor, or
    an author anchor with no text after it makes [get_book] raise
    [AttributeError]. *)
Theorem get_book_incomplete_heading (env : Env) (url : option string) (st st' : State)
    (elem : Elem) :
  run env (findone ".eText" url None) st = (Ok (Some elem), st') ->
  (el_find elem "h1" = None
   \/ (exists h1, el_find elem "h1" = Some h1 /\ el_find h1 "a" = None)
   \/ (exists h1 author,
         el_find elem "h1" = Some h1 /\ el_find h1 "a" = Some author
         /\ el_tail author = None)) ->
  run env (get_book url) st = (Err AttributeError, st').
Proof.
  intros Hone Hcase. unfold get_book. rewrite run_mbind, Hone, run_mbind, run_attr.
  destruct Hcase as [Hh1 | [(h1 & Hh1 & Ha) | (h1 & a & Hh1 & Ha & Htail)]].
  - rewrite run_mbind, run_attr, Hh1. reflexivity.
  - rewrite run_mbind, run_attr, Hh1, run_mbind, run_attr, Ha. reflexivity.
  - rewrite run_mbind, run_attr, Hh1, run_mbind, run_attr, Ha.
    rewrite run_mbind, run_attr, Htail. reflexivity.
Qed.

(** X5. When the container has two or more links of one format,
    [get_book] raises [MultipleElementsFoundError] with these links and
    returns no book: for the fb2 links whatever the epub links are, for the
    epub links when there is at most one fb2 link. *)
Theorem get_book_duplicate_link (env : Env) (url : option string) (st st' : State)
    (elem h1 author : Elem) (raw : string) (paragraphs : list Elem) :
  run env (findone ".eText" url None) st = (Ok (Some elem), st') ->
  el_find elem "h1" = Some h1 ->
  el_find h1 "a" = Some author ->
  el_tail author = Some raw ->
  el_cssselect elem "p" = Some paragraphs ->
  (forall found,
     el_cssselect elem fb2_selector = Some found -> (2 <= length found)%nat ->
     run env (get_book url) st = (Err (MultipleElementsFoundError found), st'))
  /\ (forall fb2 found,
        el_cssselect elem fb2_selector = Some fb2 -> (length fb2 <= 1)%nat ->
        el_cssselect elem epub_selector = Some found -> (2 <= length found)%nat ->
        run env (get_book url) st = (Err (MultipleElementsFoundError found), st')).
Proof.
  intros Hone Hh1 Ha Htail Hp.
  assert (Hmany : forall selector found,
    el_cssselect elem selector = Some found -> (2 <= length found)%nat ->
    run env (findone selector None (Some elem)) st'
    = (Err (MultipleElementsFoundError found), st')).
  { intros selector found Hsel Hlen. rewrite run_findone, run_findall_tree, Hsel.
    destruct found as [| e1 [| e2 rest]]; simpl in Hlen; [lia | lia | reflexivity]. }
  split.
  - intros found Hsel Hlen. unfold get_book.
    rewrite run_mbind, Hone, run_mbind, run_attr.
    rewrite run_mbind, run_attr, Hh1, run_mbind, run_attr, Ha.
    rewrite run_mbind, run_attr, Htail, run_mbind, run_findall_tree, Hp.
    rewrite run_mbind, (Hmany _ _ Hsel Hlen). reflexivity.
  - intros fb2 found Hfb2 Hlfb2 Hsel Hlen. unfold get_book.
    rewrite run_mbind, Hone, run_mbind, run_attr.
    rewrite run_mbind, run_attr, Hh1, run_mbind, run_attr, Ha.
    rewrite run_mbind, run_attr, Htail, run_mbind, run_findall_tree, Hp.
    rewrite run_mbind, (findone_link _ _ _ _ _ Hfb2 Hlfb2).
    rewrite run_mbind, (Hmany _ _ Hsel Hlen). reflexivity.
Qed.

End BookExtras.

(** ** More on the index and the search *)

Section SearchExtras.
Context {Elem : Type} `{!Lxml Elem}.

Lemma run_tuple_yields {X Y : Type} (env : Env) (f : X -> Y) (xs : list X) (st : State) :
  run (Elem := Elem) env (tuple (gen_for xs (fun x => GYield (f x) GDone))) st
  = (Ok (f <$> xs), st).
Proof.
  induction xs as [| x rest IH]; [reflexivity |].
  cbn [gen_for gen_seq tuple]. rewrite run_bind, IH. reflexivity.
Qed.

Lemma index_of_anchors_textless (anchors : list Elem)
    (acc : gmap string (option string)) :
  Exists (fun a => el_text a = None) anchors ->
  index_of_anchors anchors acc = Raise AttributeError.
Proof.
  intros Hex. revert acc. induction Hex as [a rest Hnone | a rest _ IH]; intros acc.
  - simpl. rewrite Hnone. reflexivity.
  - simpl. destruct (el_text a) as [t |]; [apply IH | reflexivity].
Qed.

(** X6. When an anchor of the index page has no text, [get_index] raises
    [AttributeError] and returns no index, whatever the other anchors
    are. *)
Theorem get_index_textless_anchor (env : Env) (st st' : State) (anchors : list Elem) :
  run env (findall "#s1 a" (Some "/") None) st = (Ok anchors, st') ->
  Exists (fun a => el_text a = None) anchors ->
  run env get_index st = (Err AttributeError, st').
Proof.
  intros Hfind Hex. unfold get_index.
  rewrite run_mbind, Hfind, (index_of_anchors_textless _ _ Hex). reflexivity.
Qed.

(** X7. When the index maps the lowercased first character of the query
    to a URL that is not empty, iterating [search(query)] to the end makes
    two requests, for the index page and for the page at that URL, and
    yields, in document order, the [href] and the text of every anchor that
    the selector built from the unchanged query selects there. *)
Theorem search_yields_matches (env : Env) (st st1 st2 : State) (c : ascii)
    (rest url : string) (index : gmap string (option string)) (anchors : list Elem) :
  run env get_index st = (Ok index, st1) ->
  index !! PyStr.lower (String c EmptyString) = Some (Some url) ->
  url <> EmptyString ->
  run env (findall (search_selector (String c rest)) (Some url) None) st1
  = (Ok anchors, st2) ->
  run env (search (String c rest) ≫= tuple) st
  = (Ok ((fun a => (el_get a "href", el_text a)) <$> anchors), st2)
  /\ trace st2
     = trace st ++ [HttpGet (get_abs_url (Some "/")) false;
                    HttpGet (get_abs_url (Some url)) false].
Proof.
  intros Hindex Hkey Hurl Hfind. split.
  - unfold search, new_generator. rewrite run_mbind. cbn [run]. unfold search_body.
    rewrite run_tuple_gen_bind, Hindex. unfold dict_get. rewrite Hkey.
    destruct url as [| d url']; [contradiction |]. cbn [PyStr.truthy].
    rewrite run_tuple_gen_bind, Hfind. apply run_tuple_yields.
  - pose proof (run_get_index_state env st) as Hst1. rewrite Hindex in Hst1.
    pose proof (run_findall_url env (search_selector (String c rest)) (Some url) st1)
      as Hst2. rewrite Hfind in Hst2. simpl in Hst1, Hst2. subst st2 st1.
    cbn [trace log]. now rewrite <- app_assoc.
Qed.

(** X8. When the index has the lowercased first character of the query
    as a key but maps it to [None] (an anchor without [href]) or to the
    empty string, iterating [search(query)] to the end yields nothing,
    raises nothing and fetches no letter page, as for a missing key. *)
Theorem search_empty_url (env : Env) (st st1 : State) (c : ascii) (rest : string)
    (index : gmap string (option string)) :
  run env get_index st = (Ok index, st1) ->
  (index !! PyStr.lower (String c EmptyString) = Some None
   \/ index !! PyStr.lower (String c EmptyString) = Some (Some EmptyString)) ->
  run env (search (String c rest) ≫= tuple) st = (Ok [], st1)
  /\ trace st1 = trace st ++ [HttpGet (get_abs_url (Some "/")) false].
Proof.
  intros Hindex Hkey. split.
  - unfold search, new_generator. rewrite run_mbind. cbn [run]. unfold search_body.
    rewrite run_tuple_gen_bind, Hindex. unfold dict_get.
    destruct Hkey as [-> | ->]; reflexivity.
  - pose proof (run_get_index_state env st) as Hst. rewrite Hindex in Hst.
    simpl in Hst. now subst st1.
Qed.

End SearchExtras.

(** ** More on the paginated book iterator *)

Section NumberFacts.

Lemma mem_lstrip_by (p : ascii -> bool) (c : ascii) (s : string) :
  PyStr.mem c s = false -> PyStr.mem c (PyStr.lstrip_by p s) = false.
Proof.
  induction s as [| d rest IH]; simpl; trivial.
  intros Hmem. apply orb_false_elim in Hmem as [Hd Hrest].
  destruct (p d); [now apply IH | simpl; now rewrite Hd, Hrest].
Qed.

Lemma mem_rstrip_by (p : ascii -> bool) (c : ascii) (s : string) :
  PyStr.mem c s = false -> PyStr.mem c (PyStr.rstrip_by p s) = false.
Proof.
  induction s as [| d rest IH]; simpl; trivial.
  intros Hmem. apply orb_false_elim in Hmem as [Hd Hrest]. specialize (IH Hrest).
  destruct (PyStr.rstrip_by p rest) as [| d' kept].
  - destruct (p d); simpl; trivial. now rewrite Hd.
  - cbn [PyStr.mem] in *. now rewrite Hd, IH.
Qed.

Lemma mem_strip (c : ascii) (s : string) :
  PyStr.mem c s = false -> PyStr.mem c (PyStr.strip s) = false.
Proof. intros Hmem. apply mem_rstrip_by, mem_lstrip_by, Hmem. Qed.

(** No field of a split contains the separator. *)
Lemma split_fields_no_sep (sep : ascii) (s : string) :
  PyStr.mem sep (PyStr.split_fields sep s).1 = false
  /\ Forall (fun field => PyStr.mem sep field = false) (PyStr.split_fields sep s).2.
Proof.
  induction s as [| c rest [Hhd Htl]]; simpl; [split; [reflexivity | constructor] |].
  destruct (PyStr.split_fields sep rest) as [hd tl]. simpl in *.
  destruct (Ascii.eqb c sep) eqn:Hc; simpl.
  - split; [reflexivity | now constructor].
  - rewrite Ascii.eqb_sym, Hc, Hhd. split; [reflexivity | exact Htl].
Qed.

Lemma split_pop_no_sep (sep : ascii) (s : string) :
  PyStr.mem sep (PyStr.split_pop sep s) = false.
Proof.
  unfold PyStr.split_pop. destruct (split_fields_no_sep sep s) as [Hhd Htl].
  destruct (PyStr.split_fields sep s) as [hd tl]. simpl in *.
  revert hd Hhd. induction Htl as [| field tl Hfield _ IH]; intros hd Hhd; simpl; trivial.
  destruct tl; [exact Hfield | now apply IH].
Qed.

Lemma digit_of_nonneg (c : ascii) (d : Z) : PyStr.digit_of c = Some d -> 0 <= d.
Proof.
  unfold PyStr.digit_of. destruct (_ && _)%bool; [| discriminate].
  intros [= <-]. lia.
Qed.

Lemma digits_nonneg (s : string) :
  forall (acc : Z) (prev : bool) (z : Z),
  0 <= acc -> PyStr.digits s acc prev = Some z -> 0 <= z.
Proof.
  induction s as [| c rest IH]; intros acc prev z Hacc; simpl.
  - destruct prev; [now intros [= <-] | discriminate].
  - destruct (PyStr.digit_of c) as [d |] eqn:Hd.
    + apply IH. apply digit_of_nonneg in Hd. lia.
    + destruct (_ && _)%bool; [now apply IH | discriminate].
Qed.

(** [int] of a string without minus sign is not negative. *)
Lemma int_nonneg (s : string) (z : Z) :
  PyStr.mem "-" s = false -> PyStr.int s = Some z -> 0 <= z.
Proof.
  intros Hmem.
  assert (Hstrip : PyStr.mem "-" (PyStr.strip_by PyStr.int_space s) = false)
    by apply mem_rstrip_by, mem_lstrip_by, Hmem.
  unfold PyStr.int. destruct (_ <? _); [discriminate |].
  destruct (PyStr.strip_by PyStr.int_space s) as [| c rest]; [discriminate |].
  destruct c as [[] [] [] [] [] [] [] []];
    try discriminate Hstrip;
    first [ apply digits_nonneg; lia | discriminate ].
Qed.

End NumberFacts.

Section IteratorExtras.
Context {Elem : Type} `{!Lxml Elem}.

(** What a successful construction went through. *)
Lemma BookIterator_init_inv (env : Env) (url : option string) (st st' : State)
    (self : BookIterator) :
  run env (BookIterator_init url) st = (Ok self, st') ->
  exists element shown total,
    run env (findone ".numShown73" url None) st = (Ok (Some element), st')
    /\ el_text element = Some shown
    /\ PyStr.int (PyStr.split_pop "-" shown) = Some (show_count self)
    /\ PyStr.int total = Some (count self)
    /\ base_url self = url.
Proof.
  unfold BookIterator_init. intros Hrun.
  rewrite run_mbind in Hrun.
  destruct (run env (findone ".numShown73" url None) st) as [[[element |] | e] st1];
    try discriminate Hrun.
  rewrite run_mbind, run_attr in Hrun.
  rewrite run_mbind, run_attr in Hrun.
  destruct (el_text element) as [shown |] eqn:Htext; [| discriminate].
  rewrite run_mbind in Hrun. cbn [py_int] in Hrun. rewrite run_or_raise in Hrun.
  destruct (PyStr.int (PyStr.split_pop "-" shown)) as [sc |] eqn:Hsc; [| discriminate].
  rewrite run_mbind, run_attr in Hrun.
  destruct (el_getparent element) as [parent |]; [| discriminate].
  rewrite run_mbind, run_attr in Hrun.
  destruct (el_getparent parent) as [grandparent |]; [| discriminate].
  rewrite run_mbind, run_attr in Hrun.
  destruct (el_find grandparent "b") as [b |]; [| discriminate].
  rewrite run_mbind in Hrun.
  destruct (el_text b) as [total |]; [| discriminate]. cbn [py_int] in Hrun.
  rewrite run_or_raise in Hrun.
  destruct (PyStr.int total) as [n |] eqn:Hn; [| discriminate].
  injection Hrun as <- <-. exists element, shown, total. repeat split; simpl; trivial.
Qed.

(** X9. Whatever the page, a [BookIterator] that was built has the URL
    it was built for, and its number of books shown per page is never
    negative: it is read after the last minus sign of the summary text.
    Building it made one request, for that URL. *)
Theorem BookIterator_init_show_count (env : Env) (url : option string)
    (st st' : State) (self : BookIterator) :
  run env (BookIterator_init url) st = (Ok self, st') ->
  base_url self = url
  /\ 0 <= show_count self
  /\ trace st' = trace st ++ [HttpGet (get_abs_url url) false].
Proof.
  intros Hrun.
  destruct (BookIterator_init_inv _ _ _ _ _ Hrun)
    as (element & shown & total & _ & _ & Hshown & _ & Hurl).
  repeat split; trivial.
  - eapply int_nonneg; [apply split_pop_no_sep | exact Hshown].
  - pose proof (run_BookIterator_init_state env url st) as Hst.
    rewrite Hrun in Hst. simpl in Hst. now subst st'.
Qed.

(** X10. When the page has one summary element, with a text [shown],
    whose grandparent has a [b] child with the text [total], the iterator
    is built with, as number shown per page, the integer after the last
    minus sign of [shown], and as total the integer [total]; both as [int]
    reads them, which skips white space other than the separators 28..31
    and takes at most 4300 digits. *)
Theorem BookIterator_init_fields (env : Env) (url : option string) (st st' : State)
    (element parent grandparent b : Elem) (shown total : string) (per_page n : Z) :
  run env (findone ".numShown73" url None) st = (Ok (Some element), st') ->
  el_text element = Some shown ->
  PyStr.int (PyStr.split_pop "-" shown) = Some per_page ->
  el_getparent element = Some parent ->
  el_getparent parent = Some grandparent ->
  el_find grandparent "b" = Some b ->
  el_text b = Some total ->
  PyStr.int total = Some n ->
  run env (BookIterator_init url) st
  = (Ok {| base_url := url; show_count := per_page; count := n |}, st').
Proof.
  intros Hone Hshown Hper Hparent Hgrand Hb Htotal Hn. unfold BookIterator_init.
  rewrite run_mbind, Hone, run_mbind, run_attr, run_mbind, run_attr, Hshown.
  rewrite run_mbind. cbn [py_int]. rewrite run_or_raise, Hper.
  rewrite run_mbind, run_attr, Hparent, run_mbind, run_attr, Hgrand.
  rewrite run_mbind, run_attr, Hb, run_mbind, Htotal. cbn [py_int].
  rewrite run_or_raise, Hn. reflexivity.
Qed.

(** X11. Building a [BookIterator] raises [AttributeError] when the page
    has no summary element, [MultipleElementsFoundError] when it has
    several, and [ValueError] when what follows the last minus sign of the
    summary text is not an integer. *)
Theorem BookIterator_init_failures (env : Env) (url : option string) (st st' : State) :
  (forall found,
     run env (findall ".numShown73" url None) st = (Ok found, st') ->
     (found = [] -> run env (BookIterator_init url) st = (Err AttributeError, st'))
     /\ ((2 <= length found)%nat ->
         run env (BookIterator_init url) st
         = (Err (MultipleElementsFoundError found), st')))
  /\ (forall element shown,
        run env (findone ".numShown73" url None) st = (Ok (Some element), st') ->
        el_text element = Some shown ->
        PyStr.int (PyStr.split_pop "-" shown) = None ->
        run env (BookIterator_init url) st = (Err ValueError, st')).
Proof.
  split.
  - intros found Hall. unfold BookIterator_init. split.
    + intros ->. rewrite run_mbind, run_findone, Hall. reflexivity.
    + intros Hlen. rewrite run_mbind, run_findone, Hall.
      destruct found as [| e1 [| e2 rest]]; simpl in Hlen; [lia | lia | reflexivity].
  - intros element shown Hone Hshown Hint. unfold BookIterator_init.
    rewrite run_mbind, Hone, run_mbind, run_attr, run_mbind, run_attr, Hshown.
    rewrite run_mbind. cbn [py_int]. rewrite run_or_raise, Hint. reflexivity.
Qed.

(** X12. For a total and a number shown per page that are positive and
    below [2 ^ 53], the page count is computed without error, and the
    number [n] of pages that [__iter__] goes through is at least 1 and is
    the least number of pages that hold the total:
    [(n - 1) * show_count < count <= n * show_count]. *)
Theorem page_count_covers_total (self : BookIterator) :
  0 < count self < 2 ^ 53 -> 0 < show_count self < 2 ^ 53 ->
  exists pages,
    count_pages self = Ok pages
    /\ let n := Z.of_nat (length (range 1 pages)) in
       1 <= n /\ (n - 1) * show_count self < count self <= n * show_count self.
Proof.
  intros Hcount Hshow. exists (ceil_div (count self) (show_count self) + 1).
  split; [now apply count_pages_exact |].
  cbv zeta. rewrite length_range.
  pose proof (ceil_div_bounds (count self) (show_count self) ltac:(lia)) as Hceil.
  assert (1 <= ceil_div (count self) (show_count self)) by nia.
  rewrite Z2Nat.id by lia.
  replace (ceil_div (count self) (show_count self) + 1 - 1)
    with (ceil_div (count self) (show_count self)) by lia.
  split; [assumption | exact Hceil].
Qed.

(** The iteration when the page count is at most 1: nothing to do. *)
Lemma run_iter_no_pages (env : Env) (self : BookIterator) (pages : Z) (st : State) :
  count self <> 0 ->
  count_pages self = Ok pages ->
  pages <= 1 ->
  run env (BookIterator_iter self ≫= tuple) st = (Ok [], st).
Proof.
  intros Hc Hp Hle.
  unfold BookIterator_iter, new_generator, BookIterator_iter_body.
  rewrite run_mbind. cbn [run].
  destruct (count self =? 0) eqn:Hzero; [apply Z.eqb_eq in Hzero; lia |].
  rewrite Hp, range_empty by exact Hle. reflexivity.
Qed.

(** X13. With a negative total and a positive number shown per page,
    iterating makes no request: it yields nothing, or, when the quotient
    is too large for a double, raises [OverflowError]; for a total above
    [- 2 ^ 53] it yields nothing. With a total other than 0 and 0 shown per
    page iterating raises [ZeroDivisionError] before any request. *)
Theorem iteration_degenerate (env : Env) (self : BookIterator) (st : State) :
  (count self < 0 -> 0 < show_count self ->
   (run env (BookIterator_iter self ≫= tuple) st = (Ok [], st)
    \/ run env (BookIterator_iter self ≫= tuple) st = (Err OverflowError, st))
   /\ (- 2 ^ 53 < count self ->
       run env (BookIterator_iter self ≫= tuple) st = (Ok [], st)))
  /\ (count self <> 0 -> show_count self = 0 ->
      run env (BookIterator_iter self ≫= tuple) st = (Err ZeroDivisionError, st)).
Proof.
  split.
  - intros Hcount Hshow.
    destruct (true_div_ceil_negative (count self) (show_count self) Hcount Hshow)
      as [Hany Hsmall].
    assert (Hnone : forall x,
              true_div (count self) (show_count self) = Ok x -> math_ceil x <= 0 ->
              run env (BookIterator_iter self ≫= tuple) st = (Ok [], st)).
    { intros x Hx Hceil. apply (run_iter_no_pages env self (math_ceil x + 1)); [lia | | lia].
      unfold count_pages. now rewrite Hx. }
    split.
    + destruct Hany as [Hover | (x & Hx & Hceil)]; [right | left; eauto].
      apply (run_iter_error env self ResultTooLarge); [lia |].
      unfold count_pages. now rewrite Hover.
    + intros Hlow. destruct (Hsmall Hlow) as (x & Hx & Hceil). eauto.
  - intros Hcount Hshow.
    apply (run_iter_error env self DivisionByZero); [exact Hcount |].
    unfold count_pages. rewrite Hshow. reflexivity.
Qed.

Lemma run_tuple_gen_seq_bind {A Y : Type} (env : Env) (p : Prog Elem A)
    (f : A -> Gen Elem Y) (h : Gen Elem Y) (st : State) :
  trace (run env (tuple (gen_seq (gen_bind p f) h)) st).2
  = match run env p st with
    | (Ok a, st1) => trace (run env (tuple (gen_seq (f a) h)) st1).2
    | (Err e, st1) => trace st1
    end.
Proof.
  revert st. induction p as [a | e | e k IH]; intros st; simpl; trivial.
  destruct (handle env e st) as [[r | x] st1]; [apply IH | reflexivity].
Qed.

Lemma prog_all_top {A : Type} (p : Prog Elem A) :
  prog_all (fun _ => True) (fun _ => True) p.
Proof. induction p; constructor; auto. Qed.

(** The trace only grows. *)
Lemma run_trace_grows {A : Type} (env : Env) (p : Prog Elem A) (st : State) :
  exists calls, trace (run env p st).2 = trace st ++ calls.
Proof.
  destruct (run env p st) as [r st'] eqn:Hrun.
  destruct (run_prog_all _ _ env p (prog_all_top p) _ _ _ Hrun) as [(calls & Htrace & _) _].
  now exists calls.
Qed.

(** X14. After a [BookIterator] was built for a URL, with a total and a
    number shown per page that are positive and below [2 ^ 53], the first
    request of the iteration is the one for that URL with the suffix -1:
    together with the request made while building, the first page of the
    list is asked for twice, once without and once with the suffix. *)
Theorem first_page_after_probe (env : Env) (url : option string) (st st1 : State)
    (self : BookIterator) :
  run env (iter_books url) st = (Ok self, st1) ->
  0 < count self < 2 ^ 53 -> 0 < show_count self < 2 ^ 53 ->
  exists more,
    trace (run env (BookIterator_iter self ≫= tuple) st1).2
    = trace st
      ++ [HttpGet ("https://fb2-epub.ru" +:+ PyStr.fstr url) false;
          HttpGet ("https://fb2-epub.ru" +:+ PyStr.fstr url +:+ "-1") false]
      ++ more.
Proof.
  intros Hinit Hcount Hshow. unfold iter_books in Hinit.
  destruct (BookIterator_init_inv _ _ _ _ _ Hinit) as (_ & _ & _ & _ & _ & _ & _ & Hurl).
  assert (Htrace1 : trace st1 = trace st ++ [HttpGet (get_abs_url url) false]).
  { pose proof (run_BookIterator_init_state env url st) as Hst.
    rewrite Hinit in Hst. simpl in Hst. now subst st1. }
  pose proof (ceil_div_bounds (count self) (show_count self) ltac:(lia)) as Hceil.
  assert (Hrange : exists rest,
            range 1 (ceil_div (count self) (show_count self) + 1) = 1 :: rest).
  { unfold range.
    destruct (Z.to_nat (ceil_div (count self) (show_count self) + 1 - 1)) as [| m] eqn:Hm;
      [nia |].
    eexists. reflexivity. }
  destruct Hrange as (rest & Hrange).
  unfold BookIterator_iter, new_generator, BookIterator_iter_body.
  rewrite run_mbind. cbn [run].
  destruct (count self =? 0) eqn:Hzero; [lia |].
  rewrite (count_pages_exact self Hcount Hshow).
  rewrite Hrange. cbn [gen_for]. rewrite run_tuple_gen_seq_bind.
  pose proof (run_findall_url env "#allEntries .My a" (Some (page_url self 1)) st1)
    as Hst.
  destruct (run env (findall _ _ None) st1) as [[anchors | e] st2];
    simpl in Hst; subst st2.
  - match goal with
    | |- context [run env ?p ?s] =>
        destruct (run_trace_grows env p s) as (more & Hmore)
    end.
    exists more. rewrite Hmore. cbn [trace log]. rewrite Htrace1.
    unfold page_url. rewrite Hurl, <- !app_assoc. reflexivity.
  - exists []. cbn [trace log]. rewrite Htrace1.
    unfold page_url. rewrite Hurl, <- !app_assoc. reflexivity.
Qed.

End IteratorExtras.

(** ** The selection menu *)

Section MenuExtras.
Context {Elem : Type} `{!Lxml Elem} `{!PyLib}.

Lemma after_log (e : Eff) (calls : list Eff) (st : State) :
  after calls (log e (fs st) st) = after (e :: calls) st.
Proof. unfold after, log. cbn [trace fs]. now rewrite <- app_assoc. Qed.

(** The loop of the menu prints one line per item and numbers the items
    from [i] on, leaving the smaller numbers alone. *)
Lemma run_menu_loop (env : Env) (items : list (option string * option string)) :
  forall (i : Z) (menu : gmap Z (option string)) (st : State),
  (forall key, i <= key -> menu !! key = None) ->
  exists menu',
    run (Elem := Elem) env (menu_loop items i menu) st
    = (Ok menu', after (menu_lines items i) st)
    /\ size menu' = (size menu + length items)%nat
    /\ (forall key, key < i -> menu' !! key = menu !! key)
    /\ (forall (j : nat) item, items !! j = Some item ->
          menu' !! (i + Z.of_nat j) = Some item.1).
Proof.
  induction items as [| item rest IH]; intros i menu st Hfree.
  - exists menu. unfold after. cbn [menu_loop menu_lines run].
    rewrite app_nil_r, Nat.add_0_r. repeat split; trivial.
    + now destruct st.
    + intros j item Hj. discriminate Hj.
  - cbn [menu_loop menu_lines]. cbv zeta. rewrite run_mbind.
    unfold click_echo, call. cbn [run handle].
    destruct (IH (i + 1) (<[i := item.1]> menu)
                (log (Echo (pretty i +:+ ". " +:+ PyStr.fstr item.2)) (fs st) st))
      as (menu' & Hrun & Hsize & Hkeep & Hitems).
    { intros key Hkey. rewrite lookup_insert_ne by lia. apply Hfree. lia. }
    exists menu'. rewrite Hrun, after_log. split; [reflexivity |]. split; [| split].
    + rewrite Hsize, map_size_insert_None by (apply Hfree; lia). simpl. lia.
    + intros key Hkey. rewrite Hkeep by lia. apply lookup_insert_ne. lia.
    + intros [| j] it Hj.
      * injection Hj as <-. rewrite Z.add_0_r, Hkeep by lia. apply lookup_insert_eq.
      * replace (i + Z.of_nat (S j)) with (i + 1 + Z.of_nat j) by lia.
        now apply Hitems.
Qed.

Lemma run_make_select_menu (env : Env)
    (items : list (option string * option string)) (st : State) (k : nat)
    (item : option string * option string) :
  items !! k = Some item ->
  stdin env (trace st ++ menu_lines items 1) "Select one" = Some (Z.of_nat k + 1) ->
  run (Elem := Elem) env (make_select_menu items) st
  = (Ok item.1,
     after (menu_lines items 1
            ++ [Prompt "Select one" 1 (Z.of_nat (length items))]) st).
Proof.
  intros Hitem Hanswer. unfold make_select_menu.
  destruct (run_menu_loop env items 1 ∅ st) as (menu & Hrun & Hsize & _ & Hitems).
  { intros key _. apply lookup_empty. }
  rewrite run_mbind, Hrun, run_mbind. unfold click_prompt, call. cbn [run handle].
  rewrite map_size_empty in Hsize. rewrite Hsize. cbn [after trace fs Nat.add].
  rewrite Hanswer.
  pose proof (lookup_lt_Some _ _ _ Hitem) as Hlt.
  replace ((1 <=? Z.of_nat k + 1) && (Z.of_nat k + 1 <=? Z.of_nat (length items)))
    with true by (symmetry; apply andb_true_intro; split; apply Z.leb_le; lia).
  unfold dict_get. rewrite Z.add_comm, (Hitems _ _ Hitem).
  unfold log, after. cbn [trace fs]. now rewrite <- app_assoc.
Qed.

(** X15. [make_select_menu] prints one line per item, numbered from 1,
    each with the title of its item, then asks once for a number between 1
    and the number of items; when the user answers [k + 1] it returns the
    URL of the item at index [k]. *)
Theorem make_select_menu_choice (env : Env)
    (items : list (option string * option string)) (st : State) (k : nat)
    (item : option string * option string) :
  items !! k = Some item ->
  stdin env (trace st ++ menu_lines items 1) "Select one" = Some (Z.of_nat k + 1) ->
  run (Elem := Elem) env (make_select_menu items) st
  = (Ok item.1,
     after (menu_lines items 1
            ++ [Prompt "Select one" 1 (Z.of_nat (length items))]) st).
Proof.
  intros Hitem Hanswer. exact (run_make_select_menu env items st k item Hitem Hanswer).
Qed.

(** X16. When the search yields two or more matches, [main] shows the
    menu of all matches and, once the user has answered [k + 1], goes on
    with the URL of the match at index [k]. *)
Theorem main_several_matches (env : Env) (st st1 : State)
    (query dest filename_template file_format : string)
    (found : list (option string * option string)) (k : nat)
    (item : option string * option string) :
  run env (search query ≫= tuple) st = (Ok found, st1) ->
  (2 <= length found)%nat ->
  found !! k = Some item ->
  stdin env (trace st1 ++ menu_lines found 1) "Select one" = Some (Z.of_nat k + 1) ->
  run env (main query dest filename_template file_format) st
  = run env (main_books item.1 dest filename_template file_format)
      (after (menu_lines found 1
              ++ [Prompt "Select one" 1 (Z.of_nat (length found))]) st1).
Proof.
  intros Hsearch Hlen Hitem Hanswer. unfold main, search, new_generator in *.
  rewrite run_mbind in Hsearch. cbn [run] in Hsearch.
  rewrite run_mbind. cbn [run]. rewrite run_mbind, Hsearch, run_mbind.
  replace (1 <? length found)%nat with true
    by (symmetry; apply Nat.ltb_lt; lia).
  rewrite (run_make_select_menu env found st1 k item Hitem Hanswer). reflexivity.
Qed.

End MenuExtras.

(** ** More on the download and on the download loop *)

Section DownloadExtras.
Context {Elem : Type} `{!Lxml Elem} `{!PyLib}.

(** The writes of [download] end normally or with an exception of the
    operating system, and leave the directories and every other file
    alone, however far they get. *)
Lemma run_writes_frame (env : Env) (path : string) (chunks : list (list byte)) :
  forall st : State,
  ((run (Elem := Elem) env (for_each chunks (fun chunk => f_write path chunk)) st).1
   = Ok tt
   \/ (run (Elem := Elem) env (for_each chunks (fun chunk => f_write path chunk)) st).1
      = Err OSError)
  /\ dirs (fs (run (Elem := Elem) env
                 (for_each chunks (fun chunk => f_write path chunk)) st).2)
     = dirs (fs st)
  /\ forall other, other <> path ->
       files (fs (run (Elem := Elem) env
                    (for_each chunks (fun chunk => f_write path chunk)) st).2)
       !! other
       = files (fs st) !! other.
Proof.
  unfold f_write, call.
  induction chunks as [| chunk rest IH]; intros st; [repeat split; now left |].
  cbn [for_each]. rewrite run_bind. cbn [run handle].
  destruct (os_denies env (fs st) (FWrite path chunk)); [repeat split; now right |].
  cbn [run].
  destruct (IH (log (FWrite path chunk)
                  {| files := alter (fun old => old ++ chunk) path (files (fs st));
                     dirs := dirs (fs st) |} st)) as (Hres & Hdirs & Hfiles).
  split; [exact Hres |]. split; [exact Hdirs |].
  intros other Hother. rewrite (Hfiles other Hother). cbn [fs log files].
  now apply lookup_alter_ne.
Qed.

(** X17. However [download] ends, it leaves the directories and every
    file other than the one at [path] as they were; it can only end by
    returning [path], or with an exception of the transport or of the
    operating system. *)
Theorem download_touches_only_path (env : Env) (st : State) (url path : string)
    (chunk_size : nat) :
  dirs (fs (run (Elem := Elem) env (download url path chunk_size) st).2) = dirs (fs st)
  /\ (forall other, other <> path ->
        files (fs (run (Elem := Elem) env (download url path chunk_size) st).2) !! other
        = files (fs st) !! other)
  /\ ((run (Elem := Elem) env (download url path chunk_size) st).1 = Ok path
      \/ (run (Elem := Elem) env (download url path chunk_size) st).1
         = Err RequestException
      \/ (run (Elem := Elem) env (download url path chunk_size) st).1 = Err OSError).
Proof.
  unfold download, requests_get, open_wb, call.
  rewrite run_mbind. cbn [run handle].
  destruct (http env (trace st) url true) as [resp |]; [| repeat split; auto].
  rewrite run_mbind. cbn [run handle fs log].
  destruct (os_denies env (fs st) (OpenWb path) || bool_decide (path ∈ dirs (fs st)));
    [repeat split; auto |].
  rewrite run_mbind.
  destruct (run_writes_frame env path (iter_content resp chunk_size)
              (log (OpenWb path)
                 {| files := <[path := []]> (files (fs st)); dirs := dirs (fs st) |}
                 (log (HttpGet url true) (fs st) st))) as (Hres & Hdirs & Hfiles).
  destruct (run env (for_each _ _) _) as [[[] | e] st'];
    cbn [fst snd run] in *; (split; [exact Hdirs |]); split.
  - intros other Hother. rewrite (Hfiles other Hother). cbn [fs log files].
    now apply lookup_insert_ne.
  - now left.
  - intros other Hother. rewrite (Hfiles other Hother). cbn [fs log files].
    now apply lookup_insert_ne.
  - destruct Hres as [Hres | Hres]; [discriminate | injection Hres as ->]. auto.
Qed.

(** X18. When [requests.get] itself raises, that is when the transport
    fails before a response is returned, [download] raises the exception of
    the transport right after the request: [open] is not reached, the file
    system is as it was, and a file that is already at [path] keeps its
    content. (A transport that fails later, while the body is read, does so
    after the file was opened; that case is not covered here.) *)
Theorem download_transport_failure (env : Env) (st : State) (url path : string)
    (chunk_size : nat) :
  http env (trace st) url true = None ->
  run (Elem := Elem) env (download url path chunk_size) st
  = (Err RequestException, after [HttpGet url true] st)
  /\ fs (run (Elem := Elem) env (download url path chunk_size) st).2 = fs st.
Proof.
  intros Hhttp. unfold download, requests_get, call.
  rewrite run_mbind. cbn [run handle]. rewrite Hhttp. split; reflexivity.
Qed.

(** [download] when nothing fails. *)
Lemma run_download_ok (env : Env) (st : State) (url path : string)
    (chunk_size : nat) (resp : Response) :
  (0 < chunk_size)%nat ->
  http env (trace st) url true = Some resp ->
  path ∉ dirs (fs st) ->
  os_denies env (fs st) (OpenWb path) = false ->
  (forall f chunk, os_denies env f (FWrite path chunk) = false) ->
  exists st',
    run (Elem := Elem) env (download url path chunk_size) st = (Ok path, st')
    /\ files (fs st') !! path = Some (content resp)
    /\ trace st'
       = trace st ++ [HttpGet url true; OpenWb path]
         ++ (FWrite path <$> iter_content resp chunk_size).
Proof.
  intros Hsize Hhttp Hdir Hopen Hwrite.
  destruct (concat_chunks_fuel chunk_size Hsize (length (content resp)) (content resp))
    as [Hcat _]; [lia |].
  unfold download, requests_get, open_wb, call.
  rewrite run_mbind. cbn [run handle]. rewrite Hhttp.
  rewrite run_mbind. cbn [run handle fs log]. rewrite Hopen.
  rewrite bool_decide_eq_false_2 by exact Hdir. cbn [orb].
  rewrite run_mbind.
  edestruct (run_writes (Elem := Elem) env path (iter_content resp chunk_size) Hwrite)
    as (st' & Hrun & Hfile & Htrace); [| rewrite Hrun].
  { cbn [fs log files]. apply lookup_insert_eq. }
  exists st'. cbn [run]. repeat split; trivial.
  - rewrite Hfile, (iter_content_pos resp chunk_size Hsize). now rewrite Hcat.
  - rewrite Htrace. cbn [trace log]. rewrite <- !app_assoc. reflexivity.
Qed.

(** X19. [ensure_dir], the first step of the download loop: when the path
    exists nothing is created; when it does not exist and the operating
    system allows it, the directory is created with mode 493 (octal 755), the files
    are left alone, and afterwards the path exists. *)
Theorem ensure_dir_creates_once (env : Env) (path : string) (st : State) :
  (path_exists (fs st) path = true ->
   run (Elem := Elem) env (ensure_dir path) st = (Ok tt, after [PathExists path] st))
  /\ (path_exists (fs st) path = false ->
      os_denies env (fs st) (Mkdir path 493) = false ->
      exists st',
        run (Elem := Elem) env (ensure_dir path) st = (Ok tt, st')
        /\ trace st' = trace st ++ [PathExists path; Mkdir path 493]
        /\ files (fs st') = files (fs st)
        /\ dirs (fs st') = {[path]} ∪ dirs (fs st)
        /\ path_exists (fs st') path = true).
Proof.
  unfold ensure_dir, os_path_exists, os_mkdir, call. split.
  - intros Hex. rewrite run_bind. cbn [run handle]. rewrite Hex. reflexivity.
  - intros Hex Hos. rewrite run_bind. cbn [run handle]. rewrite Hex.
    cbn [run handle fs log]. rewrite Hos, Hex. cbn [orb].
    eexists. split; [reflexivity |]. cbn [trace fs log files dirs].
    repeat split.
    + now rewrite <- app_assoc.
    + unfold path_exists. cbn [dirs].
      rewrite bool_decide_eq_true_2 by (apply elem_of_union_l, elem_of_singleton; reflexivity).
      reflexivity.
Qed.

End DownloadExtras.

Section LoopExtras.
Context {Elem : Type} `{!Lxml Elem} `{!PyLib}.

(** X20. In the download loop, a book whose author is [None] raises
    [TypeError] before any call.  A book that lacks the URL of the format
    asked for raises [TypeError] too, but only after the directory of the
    author has been looked up and, if needed, created: no request is made
    for it and nothing is skipped. *)
Theorem loop_body_type_errors (env : Env) (dest filename_template file_format : string)
    (book : gmap string (option string)) (st : State) :
  (book !! "author" = Some None ->
   run (Elem := Elem) env (main_loop_body dest filename_template file_format book) st
   = (Err TypeError, st))
  /\ (forall author title name st1,
        book !! "author" = Some (Some author) ->
        book !! "title" = Some title ->
        str_format filename_template [("author", Some author); ("title", title)]
        = Ok name ->
        dict_get (file_format +:+ "_url") book = None ->
        run (Elem := Elem) env (ensure_dir (os_path_join dest author)) st = (Ok tt, st1) ->
        run (Elem := Elem) env (main_loop_body dest filename_template file_format book) st
        = (Err TypeError, st1)).
Proof.
  unfold main_loop_body, dict_item, str_arg. split.
  - intros Hauthor. rewrite run_mbind, run_or_raise, Hauthor. reflexivity.
  - intros author title name st1 Hauthor Htitle Hformat Hurl Hdir.
    cbv zeta. rewrite run_mbind, run_or_raise, Hauthor.
    rewrite run_mbind, run_or_raise.
    rewrite run_mbind, Hdir.
    rewrite run_mbind, run_or_raise.
    rewrite run_mbind, run_or_raise, Htitle.
    rewrite run_mbind, Hformat. cbn [run].
    rewrite run_mbind, run_or_raise, Hurl. reflexivity.
Qed.

(** X21. In the download loop, for a book with an author, a title and the
    URL of the format asked for, when nothing fails: after the directory
    step the file is requested as a stream, written to the path made of the
    destination, the author, the formatted name and the extension of the
    URL, and the loop then sleeps 100 ms; the file holds the body of the
    response. *)
Theorem loop_body_downloads (env : Env) (dest filename_template file_format : string)
    (book : gmap string (option string)) (st st1 : State)
    (author name url : string) (title : option string) (resp : Response) :
  let path :=
    os_path_join (os_path_join dest author) name +:+ (os_path_splitext url).2 in
  book !! "author" = Some (Some author) ->
  book !! "title" = Some title ->
  str_format filename_template [("author", Some author); ("title", title)] = Ok name ->
  dict_get (file_format +:+ "_url") book = Some url ->
  run (Elem := Elem) env (ensure_dir (os_path_join dest author)) st = (Ok tt, st1) ->
  http env (trace st1) url true = Some resp ->
  path ∉ dirs (fs st1) ->
  os_denies env (fs st1) (OpenWb path) = false ->
  (forall f chunk, os_denies env f (FWrite path chunk) = false) ->
  exists st',
    run (Elem := Elem) env (main_loop_body dest filename_template file_format book) st
    = (Ok tt, st')
    /\ files (fs st') !! path = Some (content resp)
    /\ trace st'
       = trace st1 ++ [HttpGet url true; OpenWb path]
         ++ (FWrite path <$> iter_content resp 1024) ++ [Sleep 100].
Proof.
  intros path Hauthor Htitle Hformat Hurl Hdir Hhttp Hnodir Hopen Hwrite.
  destruct (run_download_ok (Elem := Elem) env st1 url path 1024 resp)
    as (st2 & Hrun & Hfile & Htrace);
    trivial; [lia |].
  unfold main_loop_body, dict_item, str_arg. cbv zeta.
  rewrite run_mbind, run_or_raise, Hauthor.
  rewrite run_mbind, run_or_raise.
  rewrite run_mbind, Hdir.
  rewrite run_mbind, run_or_raise.
  rewrite run_mbind, run_or_raise, Htitle.
  rewrite run_mbind, Hformat. cbn [run].
  rewrite run_mbind, run_or_raise, Hurl.
  fold path. rewrite run_mbind, Hrun. unfold sleep, call. cbn [run handle].
  eexists. split; [reflexivity |]. cbn [fs trace log]. split; [exact Hfile |].
  rewrite Htrace, <- !app_assoc. reflexivity.
Qed.

End LoopExtras.

(** ** The program for an author without books *)

Section MainExtras.
Context {Elem : Type} `{!Lxml Elem} `{!PyLib}.

(** X22. When the search yields exactly one match and the book list of
    that match announces a total of 0, [main] ends normally right after the
    book list was fetched: no menu, no download, nothing created. *)
Theorem main_no_books (env : Env) (st st1 st2 : State)
    (query dest filename_template file_format : string)
    (url title : option string) (books : BookIterator) :
  run env (search query ≫= tuple) st = (Ok [(url, title)], st1) ->
  run env (iter_books url) st1 = (Ok books, st2) ->
  count books = 0 ->
  run env (main query dest filename_template file_format) st = (Ok tt, st2)
  /\ fs st2 = fs st
  /\ exists calls,
       trace st2 = trace st ++ calls ++ [HttpGet (get_abs_url url) false]
       /\ Forall is_site_get calls.
Proof.
  intros Hsearch Hbooks Hcount.
  assert (Hst2 : st2 = log (HttpGet (get_abs_url url) false) (fs st1) st1).
  { pose proof (run_BookIterator_init_state env url st1) as Hst.
    unfold iter_books in Hbooks. rewrite Hbooks in Hst. exact Hst. }
  destruct (run_site_only _ (prog_all_tuple _ _ _ (site_search_body query)) env st)
    as (Hfs & calls & Htrace & Hcalls).
  change (run env (tuple (search_body query)) st)
    with (run env (search query ≫= tuple) st) in Hfs, Htrace.
  rewrite Hsearch in Hfs, Htrace. cbn [snd] in Hfs, Htrace.
  split; [| split].
  - unfold main, search, new_generator in *.
    rewrite run_mbind in Hsearch. cbn [run] in Hsearch.
    rewrite run_mbind. cbn [run]. rewrite run_mbind, Hsearch, run_mbind.
    cbn [length Nat.ltb Nat.leb run fst].
    unfold main_books. rewrite run_mbind, Hbooks.
    unfold BookIterator_iter, new_generator, BookIterator_iter_body.
    rewrite run_mbind, Hcount. reflexivity.
  - subst st2. cbn [fs log]. exact Hfs.
  - exists calls. split; [| exact Hcalls].
    subst st2. cbn [trace log]. now rewrite Htrace, <- app_assoc.
Qed.

End MainExtras.

(** ** The further properties on the small site *)

Section OnTheLargerSite.

#[local] Existing Instance Toy.more_lxml.
#[local] Existing Instance Toy.pylib.

Lemma parser_only_reads_the_site_witness :
  trace (run Toy.env (get_book (Some "/book1")) Toy.start).2
  = [HttpGet "https://fb2-epub.ru/book1" false]
  /\ trace (run Toy.env
              (iter_books (Some "/pushkin")
               ≫= fun books => BookIterator_iter books ≫= tuple) Toy.start).2
     = [HttpGet "https://fb2-epub.ru/pushkin" false;
        HttpGet "https://fb2-epub.ru/pushkin-1" false;
        HttpGet "https://fb2-epub.ru/book1" false]
  /\ site_only (get_book (Some "/book1"))
  /\ site_only (iter_books (Some "/pushkin")
                ≫= fun books => BookIterator_iter books ≫= tuple).
Proof.
  split; [reflexivity |]. split; [vm_compute; reflexivity |]. split.
  - exact (proj1 parser_only_reads_the_site (Some "/book1")).
  - exact (proj2 (proj2 (proj2 parser_only_reads_the_site)) (Some "/pushkin")).
Defined.

Lemma more_book_page_found :
  run Toy.env (findone ".eText" (Some "/book1") None) Toy.start
  = (Ok (Some Toy.book_container), Toy.fetched "https://fb2-epub.ru/book1").
Proof. reflexivity. Qed.

Lemma get_book_links_witness :
  exists book,
    run Toy.env (get_book (Some "/book1")) Toy.start
    = (Ok book, Toy.fetched "https://fb2-epub.ru/book1")
    /\ dict_get "author_url" book = Some "https://fb2-epub.ru/pushkin"
    /\ dict_get "epub_url" book = Some "https://fb2-epub.ru/files/book1.epub"
    /\ book !! "fb2_url" = None.
Proof.
  destruct (get_book_links Toy.env (Some "/book1") Toy.start _ _ _ _ _ _ _ _
              more_book_page_found book_page_shape)
    as (book & Hrun & _ & Hauthor & _ & Hepub & Hfb2 & _).
  exists book. split; [exact Hrun |]. split; [exact Hauthor |].
  split; [exact Hepub | exact (Hfb2 eq_refl)].
Defined.

Lemma get_book_container_witness :
  run Toy.menu_env (get_book (Some "/bare")) Toy.start
  = (Err AttributeError, Toy.fetched "https://fb2-epub.ru/bare")
  /\ run Toy.menu_env (get_book (Some "/double")) Toy.start
     = (Err (MultipleElementsFoundError
               [Toy.paragraph (Some "x"); Toy.paragraph (Some "y")]),
        Toy.fetched "https://fb2-epub.ru/double").
Proof.
  split.
  - assert (Hall : run Toy.menu_env (findall ".eText" (Some "/bare") None) Toy.start
                   = (Ok [], Toy.fetched "https://fb2-epub.ru/bare")) by reflexivity.
    exact (proj1 (get_book_container Toy.menu_env _ _ _ _ Hall) eq_refl).
  - assert (Hall : run Toy.menu_env (findall ".eText" (Some "/double") None) Toy.start
                   = (Ok [Toy.paragraph (Some "x"); Toy.paragraph (Some "y")],
                      Toy.fetched "https://fb2-epub.ru/double")) by reflexivity.
    apply (proj1 (proj2 (get_book_container Toy.menu_env _ _ _ _ Hall))).
    simpl. lia.
Defined.

Lemma get_book_incomplete_heading_witness :
  run Toy.menu_env (findone ".eText" (Some "/headless") None) Toy.start
  = (Ok (Some Toy.headless_container), Toy.fetched "https://fb2-epub.ru/headless")
  /\ run Toy.menu_env (get_book (Some "/headless")) Toy.start
     = (Err AttributeError, Toy.fetched "https://fb2-epub.ru/headless").
Proof.
  assert (Hone : run Toy.menu_env (findone ".eText" (Some "/headless") None) Toy.start
                 = (Ok (Some Toy.headless_container),
                    Toy.fetched "https://fb2-epub.ru/headless")) by reflexivity.
  split; [exact Hone |].
  apply (get_book_incomplete_heading Toy.menu_env _ _ _ _ Hone). now left.
Defined.

Lemma get_book_duplicate_link_witness :
  run Toy.menu_env (get_book (Some "/twolinks")) Toy.start
  = (Err (MultipleElementsFoundError Toy.two_links),
     Toy.fetched "https://fb2-epub.ru/twolinks").
Proof.
  assert (Hone : run Toy.menu_env (findone ".eText" (Some "/twolinks") None) Toy.start
                 = (Ok (Some Toy.two_links_container),
                    Toy.fetched "https://fb2-epub.ru/twolinks")) by reflexivity.
  refine (proj2 (get_book_duplicate_link Toy.menu_env _ _ _ _ Toy.book_heading
                   Toy.author_anchor " Some Title.. " Toy.book_paragraphs
                   Hone eq_refl eq_refl eq_refl eq_refl)
            [] Toy.two_links eq_refl _ eq_refl _); simpl; lia.
Defined.

Lemma get_index_textless_anchor_witness :
  run Toy.textless_index_env get_index Toy.start
  = (Err AttributeError, Toy.fetched "https://fb2-epub.ru/").
Proof.
  assert (Hfind : run Toy.textless_index_env (findall "#s1 a" (Some "/") None) Toy.start
                  = (Ok [Toy.anchor "P" "/p"; Toy.leaf None None [("href", "/q")]],
                     Toy.fetched "https://fb2-epub.ru/")) by reflexivity.
  apply (get_index_textless_anchor _ _ _ _ Hfind).
  right. left. reflexivity.
Defined.

Lemma search_yields_matches_witness :
  exists st2,
    run Toy.env (search "Pushkin" ≫= tuple) Toy.start
    = (Ok [(Some "/pushkin", Some "Pushkin A.")], st2)
    /\ trace st2
       = [HttpGet "https://fb2-epub.ru/" false; HttpGet "https://fb2-epub.ru/p" false].
Proof.
  assert (Hindex : run Toy.env get_index Toy.start
                   = (Ok {["p" := Some "/p"]}, Toy.fetched "https://fb2-epub.ru/"))
    by reflexivity.
  assert (Hfind : exists st2,
    run Toy.env (findall (search_selector "Pushkin") (Some "/p") None)
      (Toy.fetched "https://fb2-epub.ru/")
    = (Ok [Toy.anchor "Pushkin A." "/pushkin"], st2)) by (eexists; reflexivity).
  destruct Hfind as (st2 & Hfind). exists st2.
  assert (Hurl : "/p" <> EmptyString) by discriminate.
  exact (search_yields_matches Toy.env _ _ _ "P" "ushkin" "/p" _ _
           Hindex eq_refl Hurl Hfind).
Defined.

Lemma search_empty_url_witness :
  exists index,
    run Toy.hrefless_index_env get_index Toy.start
    = (Ok index, Toy.fetched "https://fb2-epub.ru/")
    /\ index !! "z" = Some None
    /\ index !! "y" = Some (Some EmptyString)
    /\ run Toy.hrefless_index_env (search "Zed" ≫= tuple) Toy.start
       = (Ok [], Toy.fetched "https://fb2-epub.ru/")
    /\ run Toy.hrefless_index_env (search "Yes" ≫= tuple) Toy.start
       = (Ok [], Toy.fetched "https://fb2-epub.ru/").
Proof.
  assert (Hindex : exists index,
    run Toy.hrefless_index_env get_index Toy.start
    = (Ok index, Toy.fetched "https://fb2-epub.ru/")
    /\ index !! "z" = Some None /\ index !! "y" = Some (Some EmptyString))
    by (eexists; repeat split; vm_compute; reflexivity).
  destruct Hindex as (index & Hindex & Hz & Hy). exists index.
  split; [exact Hindex |]. split; [exact Hz |]. split; [exact Hy |]. split.
  - exact (proj1 (search_empty_url Toy.hrefless_index_env _ _ "Z" "ed" _ Hindex
                    (or_introl Hz))).
  - exact (proj1 (search_empty_url Toy.hrefless_index_env _ _ "Y" "es" _ Hindex
                    (or_intror Hy))).
Defined.

Lemma pushkin_books_built :
  run Toy.env (BookIterator_init (Some "/pushkin")) Toy.start
  = (Ok Toy.pushkin_books, Toy.fetched "https://fb2-epub.ru/pushkin").
Proof. reflexivity. Qed.

Lemma BookIterator_init_show_count_witness :
  base_url Toy.pushkin_books = Some "/pushkin"
  /\ 0 <= show_count Toy.pushkin_books
  /\ trace (Toy.fetched "https://fb2-epub.ru/pushkin")
     = [HttpGet "https://fb2-epub.ru/pushkin" false].
Proof.
  exact (BookIterator_init_show_count Toy.env (Some "/pushkin") Toy.start _ _
           pushkin_books_built).
Defined.

Lemma BookIterator_init_fields_witness :
  run Toy.env (BookIterator_init (Some "/pushkin")) Toy.start
  = (Ok {| base_url := Some "/pushkin"; show_count := 20; count := 1 |},
     Toy.fetched "https://fb2-epub.ru/pushkin").
Proof.
  eapply (BookIterator_init_fields Toy.env (Some "/pushkin") Toy.start _
            (Toy.summary "1-20" "1") _ _ _ "1-20" "1"); reflexivity.
Defined.

Lemma BookIterator_init_failures_witness :
  run Toy.menu_env (BookIterator_init (Some "/bare")) Toy.start
  = (Err AttributeError, Toy.fetched "https://fb2-epub.ru/bare").
Proof.
  assert (Hall : run Toy.menu_env (findall ".numShown73" (Some "/bare") None) Toy.start
                 = (Ok [], Toy.fetched "https://fb2-epub.ru/bare")) by reflexivity.
  exact (proj1 (proj1 (BookIterator_init_failures Toy.menu_env (Some "/bare")
                         Toy.start _) [] Hall) eq_refl).
Defined.

Lemma page_count_covers_total_witness :
  count_pages Toy.many_books = Ok 4
  /\ range 1 4 = [1; 2; 3]
  /\ exists pages,
       count_pages Toy.many_books = Ok pages
       /\ let n := Z.of_nat (length (range 1 pages)) in
          1 <= n /\ (n - 1) * 20 < 45 <= n * 20.
Proof.
  split; [reflexivity |]. split; [reflexivity |].
  assert (Hcount : 0 < count Toy.many_books < 2 ^ 53) by (split; reflexivity).
  assert (Hshow : 0 < show_count Toy.many_books < 2 ^ 53) by (split; reflexivity).
  exact (page_count_covers_total Toy.many_books Hcount Hshow).
Defined.

Lemma iteration_degenerate_witness :
  run Toy.env
    (BookIterator_iter {| base_url := Some "/pushkin"; show_count := 20; count := -5 |}
     ≫= tuple) Toy.start
  = (Ok [], Toy.start)
  /\ run Toy.env
       (BookIterator_iter
          {| base_url := Some "/pushkin"; show_count := 1; count := - 10 ^ 400 |}
        ≫= tuple) Toy.start
     = (Err OverflowError, Toy.start)
  /\ run Toy.env
       (BookIterator_iter {| base_url := Some "/pushkin"; show_count := 0; count := 5 |}
        ≫= tuple) Toy.start
     = (Err ZeroDivisionError, Toy.start).
Proof.
  split; [| split].
  - assert (Hcount : -5 < 0) by reflexivity.
    assert (Hshow : 0 < 20) by reflexivity.
    assert (Hlow : - 2 ^ 53 < -5) by reflexivity.
    exact (proj2 (proj1 (iteration_degenerate Toy.env
                           {| base_url := Some "/pushkin"; show_count := 20; count := -5 |}
                           Toy.start) Hcount Hshow) Hlow).
  - vm_compute. reflexivity.
  - apply (proj2 (iteration_degenerate Toy.env
                    {| base_url := Some "/pushkin"; show_count := 0; count := 5 |}
                    Toy.start)); [discriminate | reflexivity].
Defined.

Lemma first_page_after_probe_witness :
  exists more,
    trace (run Toy.env (BookIterator_iter Toy.pushkin_books ≫= tuple)
             (Toy.fetched "https://fb2-epub.ru/pushkin")).2
    = [HttpGet "https://fb2-epub.ru/pushkin" false;
       HttpGet "https://fb2-epub.ru/pushkin-1" false] ++ more.
Proof.
  assert (Hcount : 0 < count Toy.pushkin_books < 2 ^ 53) by (split; reflexivity).
  assert (Hshow : 0 < show_count Toy.pushkin_books < 2 ^ 53) by (split; reflexivity).
  exact (first_page_after_probe Toy.env (Some "/pushkin") Toy.start _ _
           pushkin_books_built Hcount Hshow).
Defined.

Lemma make_select_menu_choice_witness :
  run (Elem := Toy.TElem) Toy.menu_env
    (make_select_menu [(Some "/pushkin", Some "Pushkin A.");
                       (Some "/pushkov", Some "Pushkov B.")]) Toy.start
  = (Ok (Some "/pushkin"),
     after [Echo "1. Pushkin A."; Echo "2. Pushkov B."; Prompt "Select one" 1 2]
       Toy.start).
Proof.
  exact (make_select_menu_choice (Elem := Toy.TElem) Toy.menu_env
           [(Some "/pushkin", Some "Pushkin A."); (Some "/pushkov", Some "Pushkov B.")]
           Toy.start 0 (Some "/pushkin", Some "Pushkin A.") eq_refl eq_refl).
Defined.

Lemma main_several_matches_witness :
  exists st1,
    run Toy.menu_env (search "Push" ≫= tuple) Toy.start
    = (Ok [(Some "/pushkin", Some "Pushkin A."); (Some "/pushkov", Some "Pushkov B.")],
       st1)
    /\ run Toy.menu_env (main "Push" "/dest" "{author}. {title}" "epub") Toy.start
       = run Toy.menu_env (main_books (Some "/pushkin") "/dest" "{author}. {title}" "epub")
           (after [Echo "1. Pushkin A."; Echo "2. Pushkov B."; Prompt "Select one" 1 2]
              st1).
Proof.
  assert (Hsearch : exists st1,
    run Toy.menu_env (search "Push" ≫= tuple) Toy.start
    = (Ok [(Some "/pushkin", Some "Pushkin A."); (Some "/pushkov", Some "Pushkov B.")],
       st1)) by (eexists; reflexivity).
  destruct Hsearch as (st1 & Hsearch). exists st1. split; [exact Hsearch |].
  assert (Hlen : (2 <= length [(Some "/pushkin", Some "Pushkin A.");
                               (Some "/pushkov", Some "Pushkov B.")])%nat)
    by (simpl; lia).
  exact (main_several_matches Toy.menu_env Toy.start st1
           "Push" "/dest" "{author}. {title}" "epub" _ 0
           (Some "/pushkin", Some "Pushkin A.") Hsearch Hlen eq_refl eq_refl).
Defined.

Lemma download_transport_failure_witness :
  run (Elem := Toy.TElem) Toy.down_env
    (download "https://fb2-epub.ru/files/book1.epub" "/dest/old.epub" 1024) Toy.used
  = (Err RequestException,
     after [HttpGet "https://fb2-epub.ru/files/book1.epub" true] Toy.used)
  /\ files (fs (after [HttpGet "https://fb2-epub.ru/files/book1.epub" true] Toy.used))
     !! "/dest/old.epub" = Some Toy.epub_bytes.
Proof.
  split; [| vm_compute; reflexivity].
  exact (proj1 (download_transport_failure (Elem := Toy.TElem) Toy.down_env Toy.used
                  "https://fb2-epub.ru/files/book1.epub" "/dest/old.epub" 1024 eq_refl)).
Defined.

Lemma ensure_dir_creates_once_witness :
  run (Elem := Toy.TElem) Toy.env (ensure_dir "/dest") Toy.start
  = (Ok tt, after [PathExists "/dest"] Toy.start)
  /\ exists st',
       run (Elem := Toy.TElem) Toy.env (ensure_dir "/dest/A") Toy.start = (Ok tt, st')
       /\ trace st' = [PathExists "/dest/A"; Mkdir "/dest/A" 493]
       /\ path_exists (fs st') "/dest/A" = true.
Proof.
  split.
  - apply (proj1 (ensure_dir_creates_once (Elem := Toy.TElem) Toy.env "/dest" Toy.start)).
    vm_compute. reflexivity.
  - destruct (proj2 (ensure_dir_creates_once (Elem := Toy.TElem) Toy.env "/dest/A"
                       Toy.start))
      as (st' & Hrun & Htrace & _ & _ & Hexists);
      [vm_compute; reflexivity | reflexivity |].
    exists st'. auto.
Defined.

Lemma loop_body_type_errors_witness :
  exists st1,
    run (Elem := Toy.TElem) Toy.env (ensure_dir "/dest/A") Toy.start = (Ok tt, st1)
    /\ run (Elem := Toy.TElem) Toy.env
         (main_loop_body "/dest" "{author}. {title}" "epub" Toy.linkless_book) Toy.start
       = (Err TypeError, st1).
Proof.
  assert (Hdir : exists st1,
    run (Elem := Toy.TElem) Toy.env (ensure_dir "/dest/A") Toy.start = (Ok tt, st1))
    by (eexists; vm_compute; reflexivity).
  destruct Hdir as (st1 & Hdir). exists st1. split; [exact Hdir |].
  refine (proj2 (loop_body_type_errors (Elem := Toy.TElem) Toy.env "/dest"
                   "{author}. {title}" "epub" Toy.linkless_book Toy.start)
            "A" (Some "T") "A. T" st1 _ _ _ _ Hdir); vm_compute; reflexivity.
Defined.

Lemma loop_body_downloads_witness :
  exists st',
    run (Elem := Toy.TElem) Toy.env
      (main_loop_body "/dest" "{author}. {title}" "epub" Toy.epub_book) Toy.start
    = (Ok tt, st')
    /\ files (fs st') !! "/dest/A/A. T.epub" = Some Toy.epub_bytes.
Proof.
  assert (Hdir : run (Elem := Toy.TElem) Toy.env (ensure_dir "/dest/A") Toy.start
                 = (Ok tt,
                    {| trace := [PathExists "/dest/A"; Mkdir "/dest/A" 493];
                       fs := {| files := ∅; dirs := {["/dest/A"]} ∪ {["/dest"]} |} |}))
    by reflexivity.
  assert (Hnodir : "/dest/A/A. T.epub" ∉ ({["/dest/A"]} ∪ {["/dest"]} : gset string)).
  { intros Hin. apply elem_of_union in Hin as [Hin | Hin];
      apply elem_of_singleton in Hin; discriminate. }
  destruct (loop_body_downloads (Elem := Toy.TElem) Toy.env "/dest" "{author}. {title}"
              "epub" Toy.epub_book Toy.start
              {| trace := [PathExists "/dest/A"; Mkdir "/dest/A" 493];
                 fs := {| files := ∅; dirs := {["/dest/A"]} ∪ {["/dest"]} |} |}
              "A" "A. T"
              "https://fb2-epub.ru/files/book1.epub" (Some "T")
              (mkResponse 200 Toy.epub_bytes))
    as (st' & Hrun & Hfile & _);
    [vm_compute; reflexivity | vm_compute; reflexivity | reflexivity
    | vm_compute; reflexivity | exact Hdir | reflexivity | exact Hnodir
    | reflexivity | reflexivity |].
  exists st'. split; [exact Hrun | exact Hfile].
Defined.

Lemma main_no_books_witness :
  exists st1 st2,
    run Toy.bookless_env (search "Pnin" ≫= tuple) Toy.start
    = (Ok [(Some "/empty", Some "Pnin T.")], st1)
    /\ run Toy.bookless_env (main "Pnin" "/dest" "{author}. {title}" "epub") Toy.start
       = (Ok tt, st2)
    /\ fs st2 = fs Toy.start.
Proof.
  assert (Hsearch : exists st1,
    run Toy.bookless_env (search "Pnin" ≫= tuple) Toy.start
    = (Ok [(Some "/empty", Some "Pnin T.")], st1)) by (eexists; reflexivity).
  destruct Hsearch as (st1 & Hsearch).
  assert (Hbooks : exists st2,
    run Toy.bookless_env (iter_books (Some "/empty")) st1 = (Ok Toy.no_books, st2)).
  { assert (Hst1 : exists s, s = st1
                   /\ exists st2, run Toy.bookless_env (iter_books (Some "/empty")) s
                                  = (Ok Toy.no_books, st2)).
    { eexists. split; [| eexists; reflexivity].
      exact (f_equal snd Hsearch). }
    destruct Hst1 as (s & -> & Hex). exact Hex. }
  destruct Hbooks as (st2 & Hbooks). exists st1, st2. split; [exact Hsearch |].
  destruct (main_no_books Toy.bookless_env Toy.start st1 st2
              "Pnin" "/dest" "{author}. {title}" "epub" _ _ _ Hsearch Hbooks eq_refl)
    as (Hmain & Hfs & _).
  split; [exact Hmain | exact Hfs].
Defined.

End OnTheLargerSite.
